(** * salestax-go: the tax resolution engine of [salestax.go]

    A shallow embedding of [src/salestax.go] and the properties of its
    rate resolver, exchange classifier and tax composer.

    - Go's [float32] is IEEE-754 binary32; it is modelled by the standard
      library's [spec_float] at precision 24 and maximal exponent 128, with
      [SFadd] (round to nearest even) for [+] and [SFcompare] for [>].
    - A Go map is a list of bindings, [None] being the nil map.  The order of
      the list is the order in which [range] visits the map, which Go leaves
      unspecified: every statement below holds for every order.
    - The methods of [*Ctrl] read the wall clock and fill two caches of the
      receiver; they are written in a state-and-error monad over [World]. *)

From Stdlib Require Import ZArith Lia Bool List String Ascii.
From Stdlib Require Import Floats.SpecFloat.
From Stdlib Require Import Permutation.
Import ListNotations.

Local Open Scope Z_scope.
Local Open Scope string_scope.

Set Implicit Arguments.

(* ================================================================= *)
(** ** IEEE-754 binary32 *)

Module Float32.

Definition prec : Z := 24.
Definition emax : Z := 128.

Definition float32 : Type := spec_float.

(** The constant [0] and the zero value of a [float32] variable. *)
Definition zero : float32 := S754_zero false.

(** [x + y] *)
Definition add (x y : float32) : float32 := SFadd prec emax x y.

(** [x > y] *)
Definition gt (x y : float32) : bool := SFltb y x.

(** [x == y] *)
Definition eq (x y : float32) : bool := SFeqb x y.

(** [x >= y] *)
Definition ge (x y : float32) : bool := SFleb y x.

Definition is_nan (x : float32) : bool :=
  match x with S754_nan => true | _ => false end.

(** The values a [float32] variable can hold: finite mantissas are
    canonical and exponents within range. *)
Definition valid (x : float32) : bool := valid_binary prec emax x.

(** A rate as the data model wants it: a number that is at least zero. *)
Definition nonneg (x : float32) : bool := valid x && ge x zero.

(** A finite number above zero, or plus infinity. *)
Definition above_zero (x : float32) : Prop :=
  (exists m e, x = S754_finite false m e) \/ x = S754_infinity false.

(** A number with the sign bit [s], or no number. *)
Definition signed (s : bool) (x : float32) : Prop :=
  match x with
  | S754_nan => True
  | S754_zero s' | S754_infinity s' | S754_finite s' _ _ => s' = s
  end.

End Float32.

Abbreviation float32 := Float32.float32.

(* ================================================================= *)
(** ** Go values: strings, pointers, maps, instants *)

(** [slices.Contains(s, v)] on a slice of strings. *)
Definition slices_Contains (s : list string) (v : string) : bool :=
  existsb (String.eqb v) s.

(** [p != nil] for an optional ([*string]) parameter. *)
Definition notNil {A : Type} (p : option A) : bool :=
  match p with Some _ => true | None => false end.

(** A Go [map[string]V]: the nil map, or its bindings in the order [range]
    visits them.  A lookup takes the first binding of the key (in a map built
    by Go the keys are pairwise distinct). *)
Definition gomap (V : Type) : Type := option (list (string * V)).

Section GoMap.
Context {V : Type}.

Fixpoint assoc (k : string) (l : list (string * V)) : option V :=
  match l with
  | [] => None
  | (k', v) :: l' => if String.eqb k k' then Some v else assoc k l'
  end.

Definition lookup (m : gomap V) (k : string) : option V :=
  match m with
  | None => None
  | Some l => assoc k l
  end.

(** [v, ok := m[k]]: a missing key gives the zero value of [V] and
    [ok = false], also on the nil map. *)
Definition index (zeroValue : V) (m : gomap V) (k : string) : V * bool :=
  match lookup m k with
  | Some v => (v, true)
  | None => (zeroValue, false)
  end.

(** The bindings [for k, v := range m] goes through; none for nil. *)
Definition range (m : gomap V) : list (string * V) :=
  match m with
  | None => []
  | Some l => l
  end.

(** [m == nil] *)
Definition isNil (m : gomap V) : bool :=
  match m with None => true | Some _ => false end.
End GoMap.

(** A [time.Time] is taken as the instant it denotes, counted from the Unix
    epoch in a unit of time (milliseconds in the sample runtime below);
    [t.Before(u)] compares instants. *)
Definition Time : Type := Z.

Definition Before (t u : Time) : bool := (t <? u)%Z.

(* ================================================================= *)
(** ** The data model of [salestax.go] *)

Inductive TaxExchange : Type :=
| TaxExchangeBusiness
| TaxExchangeConsumer.

Inductive TaxArea : Type :=
| TaxAreaWorldwide
| TaxAreaNational
| TaxAreaRegional.

Definition TaxArea_eqb (a b : TaxArea) : bool :=
  match a, b with
  | TaxAreaWorldwide, TaxAreaWorldwide
  | TaxAreaNational, TaxAreaNational
  | TaxAreaRegional, TaxAreaRegional => true
  | _, _ => false
  end.

Record TaxCharge : Type := mkTaxCharge {
  Direct : bool;
  Reverse : bool
}.

(** The field [Type] of the source is [Type_] here. *)
Record SalesTax : Type := mkSalesTax {
  Type_ : string;
  Rate : float32;
  Area : TaxArea;
  Exchange : TaxExchange;
  Charge : TaxCharge
}.

#[local] Unset Elimination Schemes.

Inductive taxRate : Type := mkTaxRate {
  TaxType : string;
  TaxRate : float32;
  PreviousRecordings : gomap taxRate;
  States : gomap taxRate
}.

#[local] Set Elimination Schemes.

Record Ctrl : Type := mkCtrl {
  OriginCountryCode : option string;
  RegionalTaxEnabled : bool;
  regionCountries : gomap (list string);
  taxRates : gomap taxRate
}.

Definition defaultTaxRate : taxRate := mkTaxRate "none" Float32.zero None None.

(** The zero value of [taxRate], which [m[k]] yields for a missing key. *)
Definition zeroTaxRate : taxRate := mkTaxRate "" Float32.zero None None.

(* ================================================================= *)
(** ** Errors and the monad of the methods *)

Inductive error : Type :=
| JSONError (msg : string)               (* returned by [json.Unmarshal] *)
| ParseError (layout value : string)     (* returned by [time.Parse] *)
| Errorf (context : string) (err : error). (* [fmt.Errorf("<context>: %w", err)] *)

Fixpoint Unwrap (e : error) : error :=
  match e with
  | Errorf _ e' => Unwrap e'
  | _ => e
  end.

Definition isParseError (e : error) : bool :=
  match Unwrap e with ParseError _ _ => true | _ => false end.

Inductive result (A : Type) : Type :=
| Ok (a : A)
| Err (e : error).

Arguments Ok {A} a.
Arguments Err {A} e.

(** What a method can see and change: its receiver, whose two private
    fields are caches, and the number of times the clock was read. *)
Record World : Type := mkWorld {
  self : Ctrl;
  clockReads : nat
}.

Definition M (A : Type) : Type := World -> World * result A.

Definition ret {A : Type} (a : A) : M A := fun w => (w, Ok a).

Definition fail {A : Type} (e : error) : M A := fun w => (w, Err e).

Definition bind {A B : Type} (m : M A) (k : A -> M B) : M B :=
  fun w =>
    match m w with
    | (w', Ok a) => k a w'
    | (w', Err e) => (w', Err e)
    end.

(** [if err != nil { return nil, fmt.Errorf("<context>: %w", err) }] *)
Definition orErrorf {A : Type} (m : M A) (context : string) : M A :=
  fun w =>
    match m w with
    | (w', Ok a) => (w', Ok a)
    | (w', Err e) => (w', Err (Errorf context e))
    end.

Definition lift {A : Type} (r : result A) : M A := fun w => (w, r).

(** The receiver [t]. *)
Definition this : M Ctrl := fun w => (w, Ok (self w)).

Declare Scope go_scope.
Delimit Scope go_scope with go.

Notation "x <- m ;; k" := (bind m (fun x => k))
  (at level 100, m at next level, right associativity) : go_scope.
Notation "' p <- m ;; k" := (bind m (fun p => k))
  (at level 100, p pattern, m at next level, right associativity) : go_scope.
Notation "m 'orErr' c" := (orErrorf m c) (at level 50, left associativity) : go_scope.

Local Open Scope go_scope.

(** What the program takes from outside its own code: two functions of
    Go's standard library, the wall clock behind the package variable
    [currentTime], and the two embedded JSON files, through the outcome of
    [json.Unmarshal] on each of them. *)
Class Runtime : Type := {
  (** [strings.ToUpper] *)
  strings_ToUpper : string -> string;
  (** [time.Parse(layout, value)]; [None] when it returns an error *)
  time_Parse : string -> string -> option Time;
  (** the instant the n-th call of [currentTime()] returns *)
  currentTime : nat -> Time;
  (** [json.Unmarshal(regionCountriesData, &m)] for a nil [m]: the map left
      in [m] and the message of the error returned, if any *)
  unmarshal_regionCountriesData : gomap (list string) * option string;
  (** [json.Unmarshal(salesTaxRatesData, &m)] for a nil [m], likewise *)
  unmarshal_salesTaxRatesData : gomap taxRate * option string
}.

(* ================================================================= *)
(** ** The methods of [*Ctrl] *)

Section Engine.
Context {rt : Runtime}.

(** [currentTime()] *)
Definition now : M Time :=
  fun w => (mkWorld (self w) (S (clockReads w)), Ok (currentTime (clockReads w))).

(** Assignments to the two private fields of the receiver. *)
Definition set_regionCountries (m : gomap (list string)) : M unit :=
  fun w =>
    let t := self w in
    (mkWorld (mkCtrl (OriginCountryCode t) (RegionalTaxEnabled t) m (taxRates t))
             (clockReads w), Ok tt).

Definition set_taxRates (m : gomap taxRate) : M unit :=
  fun w =>
    let t := self w in
    (mkWorld (mkCtrl (OriginCountryCode t) (RegionalTaxEnabled t) (regionCountries t) m)
             (clockReads w), Ok tt).

Definition getRegionCountries : M (gomap (list string)) :=
  t <- this ;;
  if isNil (regionCountries t) then
    let '(m, err) := unmarshal_regionCountriesData in
    _ <- set_regionCountries m ;;
    match err with
    | Some msg => fail (Errorf "failed to unmarshal data" (JSONError msg))
    | None => ret m
    end
  else ret (regionCountries t).

Definition getSalesTaxRates : M (gomap taxRate) :=
  t <- this ;;
  if isNil (taxRates t) then
    let '(m, err) := unmarshal_salesTaxRatesData in
    _ <- set_taxRates m ;;
    match err with
    | Some msg => fail (Errorf "failed to unmarshal data" (JSONError msg))
    | None => ret m
    end
  else ret (taxRates t).

(** The loop of [getTargetArea] over the regions, with its [break]. *)
Fixpoint rangeRegionCountries (origin countryCode : string)
    (regions : list (string * list string)) (targetArea : TaxArea) : TaxArea :=
  match regions with
  | [] => targetArea
  | (_, countries) :: regions' =>
      if slices_Contains countries origin && slices_Contains countries countryCode
      then TaxAreaRegional
      else rangeRegionCountries origin countryCode regions' targetArea
  end.

Definition getTargetArea (countryCode : string) : M TaxArea :=
  let targetArea := TaxAreaWorldwide in
  t <- this ;;
  match OriginCountryCode t with
  | Some origin =>
      if String.eqb origin countryCode then ret TaxAreaNational
      else
        regionCountries <- getRegionCountries orErr "failed to get region countries" ;;
        ret (rangeRegionCountries origin countryCode (range regionCountries) targetArea)
  | None => ret targetArea
  end.

Definition dateLayout : string := "2006-01-02T15:04:05.000Z".

(** The loop of [getSalesTaxRate] over the history of a record; it carries
    the two variables [activeDateKey] and [activeDate]. *)
Fixpoint rangePreviousRecordings (currentDate : Time)
    (recordings : list (string * taxRate))
    (activeDateKey : option string) (activeDate : option Time)
    : result (option string * option Time) :=
  match recordings with
  | [] => Ok (activeDateKey, activeDate)
  | (dateStr, _) :: recordings' =>
      match time_Parse dateLayout dateStr with
      | None =>
          Err (Errorf ("failed to parse date " ++ dateStr) (ParseError dateLayout dateStr))
      | Some date =>
          if Before currentDate date then
            if match activeDate with
               | None => true
               | Some active => Before date active
               end
            then rangePreviousRecordings currentDate recordings' (Some dateStr) (Some date)
            else rangePreviousRecordings currentDate recordings' activeDateKey activeDate
          else rangePreviousRecordings currentDate recordings' activeDateKey activeDate
      end
  end.

Definition getSalesTaxRate (countryCode : string) : M taxRate :=
  rates <- getSalesTaxRates orErr "failed to get sales tax rates" ;;
  let '(rate, ok) := index zeroTaxRate rates countryCode in
  if negb ok then ret defaultTaxRate
  else if negb (isNil (PreviousRecordings rate)) then
    currentDate <- now ;;
    ' (activeDateKey, _) <-
      lift (rangePreviousRecordings currentDate (range (PreviousRecordings rate)) None None) ;;
    match activeDateKey with
    | Some key => ret (fst (index zeroTaxRate (PreviousRecordings rate) key))
    | None => ret rate
    end
  else ret rate.

Definition hasTotalSalesTax (countryCode : string) (stateCode : option string) : M bool :=
  let countryCode := strings_ToUpper countryCode in
  let stateCode := option_map strings_ToUpper stateCode in
  rate <- getSalesTaxRate countryCode
            orErr ("failed to get country tax rate for " ++ countryCode) ;;
  let totalTax := TaxRate rate in
  let totalTax :=
    match stateCode with
    | Some code =>
        let '(rate', ok) := index zeroTaxRate (States rate) code in
        if ok then Float32.add totalTax (TaxRate rate') else totalTax
    | None => totalTax
    end in
  ret (Float32.gt totalTax Float32.zero).

Definition getTaxExchangeStatus (countryCode : string) (stateCode taxNumber : option string)
    : M (TaxExchange * bool) :=
  targetArea <- getTargetArea countryCode orErr "failed to get target area" ;;
  hasTotalSalesTax <- hasTotalSalesTax countryCode stateCode
                        orErr "failed to determine whether a sales tax is applicable" ;;
  if hasTotalSalesTax then
    if notNil taxNumber
    then ret (TaxExchangeBusiness, negb (TaxArea_eqb targetArea TaxAreaNational))
    else ret (TaxExchangeConsumer, false)
  else ret (TaxExchangeConsumer, true).

(** Lines 72 to 97 of [GetSalesTax]: the choice of [countryTax] and
    [stateTax], named here because the properties below speak of them.  For a
    state
    code that the country's table does not have, line 90 sets the pointer
    [stateTax] to the default record and line 93, outside that [if], sets it
    to the address of [tax], which then holds the zero value of [taxRate]. *)
Definition selectTaxRates (targetArea : TaxArea) (countryCode : string)
    (stateCode : option string) : M (taxRate * taxRate) :=
  t <- this ;;
  match TaxArea_eqb targetArea TaxAreaRegional && negb (RegionalTaxEnabled t),
        OriginCountryCode t with
  | true, Some origin =>
      countryTax <- getSalesTaxRate origin
                      orErr ("failed to get country tax rate for " ++ origin) ;;
      let stateTax := defaultTaxRate in
      ret (countryTax, stateTax)
  | _, _ =>
      countryTax <- getSalesTaxRate countryCode
                      orErr ("failed to get country tax rate for " ++ countryCode) ;;
      match negb (isNil (States countryTax)), stateCode with
      | true, Some code =>
          let '(tax, ok) := index zeroTaxRate (States countryTax) code in
          let stateTax := if negb ok then Some defaultTaxRate else None in
          let stateTax := tax in
          ret (countryTax, stateTax)
      | _, _ =>
          let stateTax := defaultTaxRate in
          ret (countryTax, stateTax)
      end
  end.

(** [fmt.Sprintf("%s+%s", a, b)] *)
Definition Sprintf_plus (a b : string) : string := a ++ "+" ++ b.

Definition GetSalesTax (countryCode : string) (stateCode taxNumber : option string)
    : M SalesTax :=
  let countryCode := strings_ToUpper countryCode in
  let stateCode := option_map strings_ToUpper stateCode in
  targetArea <- getTargetArea countryCode orErr "failed to get target area" ;;
  ' (countryTax, stateTax) <- selectTaxRates targetArea countryCode stateCode ;;
  let taxExchange := TaxExchangeConsumer in
  let isExempt := false in
  let totalRate := Float32.add (TaxRate countryTax) (TaxRate stateTax) in
  ' (taxExchange, isExempt) <-
    (if Float32.gt (TaxRate countryTax) Float32.zero
        || Float32.gt (TaxRate stateTax) Float32.zero
     then getTaxExchangeStatus countryCode stateCode taxNumber
            orErr "failed to get tax exchange status"
     else ret (taxExchange, isExempt)) ;;
  let taxType := TaxType countryTax in
  let taxType :=
    if Float32.gt (TaxRate stateTax) Float32.zero then
      if Float32.gt (TaxRate countryTax) Float32.zero
      then Sprintf_plus taxType (TaxType stateTax)
      else TaxType stateTax
    else taxType in
  let taxCharge :=
    if negb (String.eqb taxType "none")
    then mkTaxCharge (negb isExempt) (isExempt && Float32.gt totalRate Float32.zero)
    else mkTaxCharge false false in
  let taxRate := totalRate in
  let totalRate := if isExempt then Float32.zero else totalRate in
  ret (mkSalesTax taxType taxRate targetArea taxExchange taxCharge).
End Engine.

(* ================================================================= *)
(** ** Vocabulary of the statements *)

Section Vocabulary.
Context {rt : Runtime}.

(** The rate table a receiver works with: its cache once that is filled,
    and before that what [json.Unmarshal] makes of the embedded file. *)
Definition ratesOf (t : Ctrl) : gomap taxRate :=
  if isNil (taxRates t) then fst unmarshal_salesTaxRatesData else taxRates t.

(** The region table of a receiver, likewise. *)
Definition regionsOf (t : Ctrl) : gomap (list string) :=
  if isNil (regionCountries t) then fst unmarshal_regionCountriesData
  else regionCountries t.

(** The area of a destination as the region table decides it. *)
Definition areaOf (t : Ctrl) (countryCode : string) : TaxArea :=
  match OriginCountryCode t with
  | Some origin =>
      if String.eqb origin countryCode then TaxAreaNational
      else rangeRegionCountries origin countryCode (range (regionsOf t)) TaxAreaWorldwide
  | None => TaxAreaWorldwide
  end.

(** [time.Parse] with the layout of the history keys. *)
Definition parseKey (key : string) : option Time := time_Parse dateLayout key.

(** The state of the two variables of the loop over a history, once it has
    gone through [recordings]: both unset when no key is after [instant], and
    otherwise a key of [recordings] with its instant, which is after [instant]
    and the earliest of the instants after [instant]. *)
Definition nearest (instant : Time) (recordings : list (string * taxRate))
    (activeDateKey : option string) (activeDate : option Time) : Prop :=
  match activeDateKey, activeDate with
  | None, None =>
      forall k v T, In (k, v) recordings -> parseKey k = Some T -> T <= instant
  | Some key, Some date =>
      (exists v, In (key, v) recordings)
      /\ parseKey key = Some date /\ instant < date
      /\ forall k v T, In (k, v) recordings -> parseKey k = Some T -> instant < T -> date <= T
  | _, _ => False
  end.

(** What [getSalesTaxRate] makes of a record of the table at the instant
    [instant]. *)
Definition resolveAt (instant : Time) (rate : taxRate) : result taxRate :=
  match PreviousRecordings rate with
  | None => Ok rate
  | Some recordings =>
      match rangePreviousRecordings instant recordings None None with
      | Err e => Err e
      | Ok (Some key, _) => Ok (fst (index zeroTaxRate (Some recordings) key))
      | Ok (None, _) => Ok rate
      end
  end.

(** A record that [getSalesTaxRate] can return for a country: the default
    record for a country the table does not have, and else the record of
    the country or a record of its history. *)
Definition fromTable (rates : gomap taxRate) (countryCode : string) (r : taxRate) : Prop :=
  match lookup rates countryCode with
  | None => r = defaultTaxRate
  | Some top => r = top \/ exists k, In (k, r) (range (PreviousRecordings top))
  end.

(** A record that [getSalesTaxRate] returns for a country at some reading
    of the clock. *)
Definition resolvable (rates : gomap taxRate) (countryCode : string) (r : taxRate) : Prop :=
  match lookup rates countryCode with
  | None => r = defaultTaxRate
  | Some top => exists n, resolveAt (currentTime n) top = Ok r
  end.

(** The two causes of an error: the embedded data does not load, or a
    history key of a country of the table is no timestamp. *)
Definition dataError (rates : gomap taxRate) (e : error) : Prop :=
  (exists msg, Unwrap e = JSONError msg)
  \/ (exists countryCode top k v,
        lookup rates countryCode = Some top
        /\ In (k, v) (range (PreviousRecordings top))
        /\ parseKey k = None /\ Unwrap e = ParseError dateLayout k).

(** The world after one more reading of the clock. *)
Definition tick (w : World) : World := mkWorld (self w) (S (clockReads w)).

(** What no method changes: the two public fields of the receiver and the
    two tables behind its caches. *)
Definition keeps (w w' : World) : Prop :=
  OriginCountryCode (self w') = OriginCountryCode (self w)
  /\ RegionalTaxEnabled (self w') = RegionalTaxEnabled (self w)
  /\ ratesOf (self w') = ratesOf (self w)
  /\ regionsOf (self w') = regionsOf (self w).

(** The next call of [getSalesTaxRates] returns a table: the cache is
    filled, or [json.Unmarshal] reports no error on the embedded file. *)
Definition ratesLoad (t : Ctrl) : bool :=
  negb (isNil (taxRates t)) || negb (notNil (snd unmarshal_salesTaxRatesData)).

(** The same of [getRegionCountries]. *)
Definition regionsLoad (t : Ctrl) : bool :=
  negb (isNil (regionCountries t)) || negb (notNil (snd unmarshal_regionCountriesData)).

(** Two worlds that differ at most in what their caches hold already and in
    how often the clock was read, the clock showing the same instants to
    both from now on. *)
Definition alike (w v : World) : Prop :=
  OriginCountryCode (self w) = OriginCountryCode (self v)
  /\ RegionalTaxEnabled (self w) = RegionalTaxEnabled (self v)
  /\ ratesOf (self w) = ratesOf (self v)
  /\ regionsOf (self w) = regionsOf (self v)
  /\ ratesLoad (self w) = ratesLoad (self v)
  /\ regionsLoad (self w) = regionsLoad (self v)
  /\ forall i, currentTime (clockReads w + i)%nat = currentTime (clockReads v + i)%nat.

(** A computation that returns the same in worlds that are alike, and leaves
    them alike. *)
Definition respects {A : Type} (m : M A) : Prop :=
  forall w v, alike w v -> snd (m w) = snd (m v) /\ alike (fst (m w)) (fst (m v)).

(** What a method leaves of the world: a cache that is filled stays as it
    is, and the clock is read at most [n] times. *)
Definition steady (n : nat) (w w' : World) : Prop :=
  (isNil (taxRates (self w)) = false -> taxRates (self w') = taxRates (self w))
  /\ (isNil (regionCountries (self w)) = false ->
      regionCountries (self w') = regionCountries (self w))
  /\ (clockReads w <= clockReads w' /\ clockReads w' <= clockReads w + n)%nat.
End Vocabulary.

(** A record and the records of its per-state table have rates that are
    numbers and at least zero. *)
Definition recordNonneg (r : taxRate) : bool :=
  Float32.nonneg (TaxRate r)
  && forallb (fun b => Float32.nonneg (TaxRate (snd b))) (range (States r)).

(** The same of every record of a rate table and of every record of its
    history. *)
Definition tableNonneg (rates : gomap taxRate) : bool :=
  forallb (fun b => recordNonneg (snd b)
                    && forallb (fun h => recordNonneg (snd h))
                               (range (PreviousRecordings (snd b))))
          (range rates).

(** The exchange classifier in the words of the specification: the state
    component of a destination is the record of the state, and the no-tax
    record when no state is given or the table does not have it. *)
Definition stateComponent (rate : taxRate) (stateCode : option string) : taxRate :=
  match stateCode with
  | Some code =>
      match lookup (States rate) code with
      | Some r => r
      | None => defaultTaxRate
      end
  | None => defaultTaxRate
  end.

Definition combinedRate (rate : taxRate) (stateCode : option string) : float32 :=
  Float32.add (TaxRate rate) (TaxRate (stateComponent rate stateCode)).

Definition exchangeStatus_spec (area : TaxArea) (rate : taxRate)
    (stateCode taxNumber : option string) : TaxExchange * bool :=
  if negb (Float32.gt (combinedRate rate stateCode) Float32.zero)
  then (TaxExchangeConsumer, true)
  else if notNil taxNumber
       then (TaxExchangeBusiness, negb (TaxArea_eqb area TaxAreaNational))
       else (TaxExchangeConsumer, false).

(* ================================================================= *)
(** ** A concrete runtime and data, for the examples *)

Module Sample.

Local Open Scope Z_scope.

(** [strings.ToUpper] on ASCII text. *)
Definition upperAscii (c : ascii) : ascii :=
  let n := N_of_ascii c in
  if ((97 <=? n) && (n <=? 122))%N then ascii_of_N (n - 32) else c.

Fixpoint ToUpper (s : string) : string :=
  match s with
  | EmptyString => EmptyString
  | String c s' => String (upperAscii c) (ToUpper s')
  end.

(** The value of a string of decimal digits. *)
Fixpoint digits (s : string) (acc : Z) : option Z :=
  match s with
  | EmptyString => Some acc
  | String c s' =>
      let n := Z.of_N (N_of_ascii c) in
      if (48 <=? n) && (n <=? 57) then digits s' (10 * acc + (n - 48)) else None
  end.

Definition isLeap (y : Z) : bool :=
  ((y mod 4 =? 0) && negb (y mod 100 =? 0)) || (y mod 400 =? 0).

Definition daysIn (y m : Z) : Z :=
  if m =? 2 then (if isLeap y then 29 else 28)
  else if (m =? 4) || (m =? 6) || (m =? 9) || (m =? 11) then 30 else 31.

(** Days from 1970-01-01 to a date of the proleptic Gregorian calendar. *)
Definition daysFromCivil (y m d : Z) : Z :=
  let y := if m <=? 2 then y - 1 else y in
  let era := y / 400 in
  let yoe := y - era * 400 in
  let doy := (153 * (if 2 <? m then m - 3 else m + 9) + 2) / 5 + d - 1 in
  let doe := yoe * 365 + yoe / 4 - yoe / 100 + doy in
  era * 146097 + doe - 719468.

(** [time.Parse] on the one layout the program uses, for values written
    exactly in that layout: [YYYY-MM-DDThh:mm:ss.mmmZ]. *)
Definition Parse (layout value : string) : option Time :=
  if negb (String.eqb layout "2006-01-02T15:04:05.000Z") then None
  else if negb (Nat.eqb (String.length value) 24) then None
  else if negb (String.eqb (substring 4 1 value) "-" && String.eqb (substring 7 1 value) "-"
                && String.eqb (substring 10 1 value) "T"
                && String.eqb (substring 13 1 value) ":"
                && String.eqb (substring 16 1 value) ":"
                && String.eqb (substring 19 1 value) "."
                && String.eqb (substring 23 1 value) "Z") then None
  else
    match digits (substring 0 4 value) 0, digits (substring 5 2 value) 0,
          digits (substring 8 2 value) 0, digits (substring 11 2 value) 0,
          digits (substring 14 2 value) 0, digits (substring 17 2 value) 0,
          digits (substring 20 3 value) 0 with
    | Some y, Some mo, Some d, Some h, Some mi, Some s, Some ms =>
        if (1 <=? mo) && (mo <=? 12) && (1 <=? d) && (d <=? daysIn y mo)
           && (h <? 24) && (mi <? 60) && (s <? 60)
        then Some ((((daysFromCivil y mo d * 24 + h) * 60 + mi) * 60 + s) * 1000 + ms)
        else None
    | _, _, _, _, _, _, _ => None
    end.

(** binary32 constants: mantissa and exponent of the nearest [float32]. *)
Definition f0_19 : float32 := S754_finite false 12750684 (-26).
Definition f0_16 : float32 := S754_finite false 10737418 (-26).
Definition f0_2 : float32 := S754_finite false 13421773 (-26).
Definition f0_05 : float32 := S754_finite false 13421773 (-28).
Definition f0_09975 : float32 := S754_finite false 13388218 (-27).
Definition f0_14975 : float32 := S754_finite false 10049552 (-26).
Definition f0_04 : float32 := S754_finite false 10737418 (-28).
Definition f0_07 : float32 := S754_finite false 9395241 (-27).
Definition f0_175 : float32 := S754_finite false 11744051 (-26).

Definition plain (type : string) (rate : float32) : taxRate :=
  mkTaxRate type rate None None.

(** A region table and a rate table in the shape of the embedded files. *)
Definition regions : gomap (list string) :=
  Some [("EU", ["AT"; "BE"; "DE"; "ES"; "FR"; "IT"; "NL"])].

Definition de : taxRate :=
  mkTaxRate "vat" f0_19
    (Some [("2021-01-01T00:00:00.000Z", plain "vat" f0_16);
           ("2020-06-30T22:00:00.000Z", plain "vat" f0_19)])
    None.

Definition fr : taxRate := plain "vat" f0_2.

Definition gb : taxRate :=
  mkTaxRate "vat" f0_2 (Some [("2011-01-04T00:00:00.000Z", plain "vat" f0_175)]) None.

Definition ca : taxRate :=
  mkTaxRate "gst" f0_05 None
    (Some [("BC", plain "pst" f0_07); ("QC", plain "qst" f0_09975)]).

Definition us : taxRate :=
  mkTaxRate "none" Float32.zero None (Some [("NY", plain "vat" f0_04)]).

Definition rates : gomap taxRate :=
  Some [("DE", de); ("FR", fr); ("GB", gb); ("CA", ca); ("US", us)].

(** The clock stands still at 2023-11-14T22:13:20Z. *)
Definition clock (n : nat) : Time := 1700000000000.

Definition runtime : Runtime := {|
  strings_ToUpper := ToUpper;
  time_Parse := Parse;
  currentTime := clock;
  unmarshal_regionCountriesData := (regions, None);
  unmarshal_salesTaxRatesData := (rates, None)
|}.

(** The same with the clock of [Test_getSalesTaxRate], 2020-08-20. *)
Definition runtime2020 : Runtime := {|
  strings_ToUpper := ToUpper;
  time_Parse := Parse;
  currentTime := fun _ => 1597914021000;
  unmarshal_regionCountriesData := (regions, None);
  unmarshal_salesTaxRatesData := (rates, None)
|}.

(** A rate table with a history key that is no timestamp. *)
Definition ratesBadKey : gomap taxRate :=
  Some [("DE", mkTaxRate "vat" f0_19 (Some [("yesterday", plain "vat" f0_16)]) None)].

Definition runtimeBadKey : Runtime := {|
  strings_ToUpper := ToUpper;
  time_Parse := Parse;
  currentTime := clock;
  unmarshal_regionCountriesData := (regions, None);
  unmarshal_salesTaxRatesData := (ratesBadKey, None)
|}.

(** A fresh controller: [&Ctrl{OriginCountryCode: origin, RegionalTaxEnabled: regional}]. *)
Definition fresh (origin : option string) (regional : bool) : World :=
  mkWorld (mkCtrl origin regional None None) 0.

(** The same controller once its caches are filled: the region table when
    [r] is set, the rate table when [t] is set. *)
Definition filled (origin : option string) (regional r t : bool) : World :=
  mkWorld (mkCtrl origin regional (if r then regions else None) (if t then rates else None)) 0.


(** The German record with its history in the other order, and the rate
    table with it. *)
Definition deSwapped : taxRate :=
  mkTaxRate "vat" f0_19
    (Some [("2020-06-30T22:00:00.000Z", plain "vat" f0_19);
           ("2021-01-01T00:00:00.000Z", plain "vat" f0_16)])
    None.

Definition ratesSwapped : gomap taxRate :=
  Some [("DE", deSwapped); ("FR", fr); ("GB", gb); ("CA", ca); ("US", us)].

(** Decisions of [Test_GetSalesTax]. *)
Definition germanConsumer : SalesTax :=
  mkSalesTax "vat" f0_19 TaxAreaNational TaxExchangeConsumer (mkTaxCharge true false).

Definition frenchBusiness : SalesTax :=
  mkSalesTax "vat" f0_2 TaxAreaRegional TaxExchangeBusiness (mkTaxCharge false true).

Definition frenchAtGermanRate : SalesTax :=
  mkSalesTax "vat" f0_19 TaxAreaRegional TaxExchangeConsumer (mkTaxCharge true false).

Definition quebecConsumer : SalesTax :=
  mkSalesTax "gst+qst" f0_14975 TaxAreaWorldwide TaxExchangeConsumer (mkTaxCharge true false).

Definition canadianConsumer : SalesTax :=
  mkSalesTax "gst" f0_05 TaxAreaWorldwide TaxExchangeConsumer (mkTaxCharge true false).

Definition germanFromAbroad : SalesTax :=
  mkSalesTax "vat" f0_19 TaxAreaWorldwide TaxExchangeConsumer (mkTaxCharge true false).

Definition untaxed : SalesTax :=
  mkSalesTax "none" Float32.zero TaxAreaWorldwide TaxExchangeConsumer (mkTaxCharge false false).

End Sample.

(* ================================================================= *)
(** * Properties *)

Local Open Scope Z_scope.

Unset Implicit Arguments.

(** ** Rounding in [SFadd] *)

Section Rounding.
Import Float32 (above_zero, signed).

Variables prec emax : Z.
Hypothesis prec_pos : 0 < prec.

Lemma digits2_pos_lower (p : positive) :
  2 ^ (Z.pos (digits2_pos p) - 1) <= Z.pos p.
Proof.
  induction p as [p IH|p IH|]; cbn [digits2_pos].
  - rewrite Pos2Z.inj_succ.
    replace (Z.succ (Z.pos (digits2_pos p)) - 1)
      with (Z.succ (Z.pos (digits2_pos p) - 1)) by lia.
    rewrite Z.pow_succ_r by lia. lia.
  - rewrite Pos2Z.inj_succ.
    replace (Z.succ (Z.pos (digits2_pos p)) - 1)
      with (Z.succ (Z.pos (digits2_pos p) - 1)) by lia.
    rewrite Z.pow_succ_r by lia. lia.
  - simpl. lia.
Qed.

Lemma shr_m_shr_1 (mrs : shr_record) :
  0 <= shr_m mrs -> shr_m (shr_1 mrs) = shr_m mrs / 2.
Proof.
  destruct mrs as [m r s]; cbn [shr_m]; intros Hm.
  destruct m as [|p|p]; [reflexivity| |lia].
  destruct p as [p|p|]; cbn [shr_1 shr_m].
  - rewrite Pos2Z.inj_xI. apply Z.div_unique with (r := 1); lia.
  - rewrite Pos2Z.inj_xO. apply Z.div_unique with (r := 0); lia.
  - reflexivity.
Qed.

Lemma shr_m_iter_pos (p : positive) : forall mrs,
  0 <= shr_m mrs ->
  shr_m (iter_pos shr_1 p mrs) = shr_m mrs / 2 ^ Z.pos p.
Proof.
  induction p as [p IH|p IH|]; intros mrs Hm; cbn [iter_pos].
  - assert (H1 : 0 <= shr_m (shr_1 mrs))
      by (rewrite shr_m_shr_1 by assumption; apply Z.div_pos; lia).
    assert (H2 : 0 <= shr_m (iter_pos shr_1 p (shr_1 mrs)))
      by (rewrite IH by assumption; apply Z.div_pos; lia).
    rewrite IH, IH, shr_m_shr_1 by assumption.
    rewrite !Z.div_div by lia. f_equal.
    replace (Z.pos p~1) with (1 + Z.pos p + Z.pos p) by lia.
    rewrite !Z.pow_add_r, Z.pow_1_r by lia. ring.
  - assert (H2 : 0 <= shr_m (iter_pos shr_1 p mrs))
      by (rewrite IH by assumption; apply Z.div_pos; lia).
    rewrite IH, IH by assumption.
    rewrite !Z.div_div by lia. f_equal.
    replace (Z.pos p~0) with (Z.pos p + Z.pos p) by lia.
    rewrite !Z.pow_add_r by lia. reflexivity.
  - rewrite shr_m_shr_1 by assumption. reflexivity.
Qed.

Lemma shr_m_of_loc (m : Z) (l : location) : shr_m (shr_record_of_loc m l) = m.
Proof. destruct l as [|[]]; reflexivity. Qed.

Lemma fexp_ge_emin (e : Z) : emin prec emax <= fexp prec emax e.
Proof. unfold fexp. lia. Qed.

(** Shifting a positive mantissa to its canonical exponent leaves it
    positive when the exponent is not below [emin]: at most the digits
    beyond the precision are dropped. *)
Lemma shr_fexp_pos (m : positive) (e : Z) (l : location) :
  emin prec emax <= e ->
  exists q, shr_m (fst (shr_fexp prec emax (Z.pos m) e l)) = Z.pos q
            /\ emin prec emax <= snd (shr_fexp prec emax (Z.pos m) e l).
Proof.
  intros He. unfold shr_fexp, shr. cbn [Zdigits2].
  destruct (fexp prec emax (Z.pos (digits2_pos m) + e) - e) as [|p|p] eqn:Hn;
    cbn [fst snd]; try (exists m; rewrite shr_m_of_loc; split; [reflexivity|lia]).
  assert (Hp : Z.pos p = Z.pos (digits2_pos m) - prec) by (unfold fexp in Hn; lia).
  rewrite shr_m_iter_pos by (rewrite shr_m_of_loc; lia).
  rewrite shr_m_of_loc.
  assert (Hpow : 2 ^ Z.pos p <= Z.pos m).
  { apply Z.le_trans with (2 ^ (Z.pos (digits2_pos m) - 1)).
    - apply Z.pow_le_mono_r; lia.
    - apply digits2_pos_lower. }
  assert (Hq : 0 < Z.pos m / 2 ^ Z.pos p) by (apply Z.div_str_pos; lia).
  destruct (Z.pos m / 2 ^ Z.pos p) as [|q|q]; try lia.
  exists q. split; [reflexivity|lia].
Qed.

Lemma round_nearest_even_pos (m : positive) (l : location) :
  exists q, round_nearest_even (Z.pos m) l = Z.pos q.
Proof.
  destruct l as [|[]]; cbn [round_nearest_even];
    try destruct (Z.even (Z.pos m)); eexists; reflexivity.
Qed.

Lemma binary_round_aux_pos (m : positive) (e : Z) (l : location) :
  emin prec emax <= e ->
  above_zero (binary_round_aux prec emax false (Z.pos m) e l).
Proof.
  intros He. unfold binary_round_aux.
  destruct (shr_fexp_pos m e l He) as (q & Hq & He').
  destruct (shr_fexp prec emax (Z.pos m) e l) as [mrs' e']. cbn [fst snd] in *.
  rewrite Hq.
  destruct (round_nearest_even_pos q (loc_of_shr_record mrs')) as (q' & Hq').
  rewrite Hq'.
  destruct (shr_fexp_pos q' e' loc_Exact He') as (q'' & Hq'' & _).
  destruct (shr_fexp prec emax (Z.pos q') e' loc_Exact) as [mrs'' e''].
  cbn [fst] in Hq''. rewrite Hq''.
  destruct (e'' <=? emax - prec); [left; eauto|right; reflexivity].
Qed.

Lemma binary_round_pos (m : positive) (e : Z) :
  emin prec emax <= e ->
  above_zero (binary_round prec emax false m e).
Proof.
  intros He. unfold binary_round, shl_align.
  destruct (fexp prec emax (Z.pos (digits2_pos m) + e) - e) eqn:Hn;
    apply binary_round_aux_pos; try assumption.
  apply fexp_ge_emin.
Qed.

Lemma binary_round_signed (s : bool) (m : positive) (e : Z) :
  signed s (binary_round prec emax s m e).
Proof.
  unfold binary_round, binary_round_aux.
  destruct (shl_align m e _) as [mz ez].
  destruct (shr_fexp prec emax (Z.pos mz) ez loc_Exact) as [mrs' e'].
  destruct (shr_fexp prec emax _ e' loc_Exact) as [mrs'' e''].
  destruct (shr_m mrs''); cbn [signed]; trivial.
  destruct (e'' <=? emax - prec); reflexivity.
Qed.

Lemma valid_finite_emin (s : bool) (m : positive) (e : Z) :
  valid_binary prec emax (S754_finite s m e) = true -> emin prec emax <= e.
Proof.
  cbn [valid_binary]. unfold bounded, canonical_mantissa.
  intros H. apply andb_prop in H. destruct H as [H _].
  apply Z.eqb_eq in H. rewrite <- H. apply fexp_ge_emin.
Qed.

Lemma SFadd_pos_pos (mx my : positive) (ex ey : Z) :
  valid_binary prec emax (S754_finite false mx ex) = true ->
  valid_binary prec emax (S754_finite false my ey) = true ->
  above_zero (SFadd prec emax (S754_finite false mx ex) (S754_finite false my ey)).
Proof.
  intros Hx Hy. apply valid_finite_emin in Hx, Hy.
  cbn [SFadd cond_Zopp Z.add binary_normalize].
  apply binary_round_pos. lia.
Qed.

Lemma SFadd_neg_neg (mx my : positive) (ex ey : Z) :
  signed true (SFadd prec emax (S754_finite true mx ex) (S754_finite true my ey)).
Proof.
  cbn [SFadd cond_Zopp Z.add Z.opp binary_normalize].
  apply binary_round_signed.
Qed.
End Rounding.

(** ** [float32]: sums and the comparison with zero *)

Module Float32Facts.
Import Float32.

Lemma prec32_pos : 0 < prec.
Proof. reflexivity. Qed.

Lemma gt_zero_above (x : float32) : above_zero x -> gt x zero = true.
Proof. intros [(m & e & ->)| ->]; reflexivity. Qed.

Lemma gt_zero_signed (x : float32) : signed true x -> gt x zero = false.
Proof. destruct x as [s|s| |s m e]; cbn [signed]; intros H; subst; reflexivity. Qed.

(** [x + 0 > 0] exactly when [x > 0]. *)
Lemma gt_add_zero_r (x : float32) : gt (add x zero) zero = gt x zero.
Proof. destruct x as [[]|[]| |[] m e]; reflexivity. Qed.

Lemma eq_refl_finite (x : float32) : is_nan x = false -> eq x x = true.
Proof.
  destruct x as [s|[]| |[] m e]; cbn; intros H; try reflexivity; try discriminate.
  - unfold eq, SFeqb. cbn. rewrite Z.compare_refl, Pos.compare_cont_refl. reflexivity.
  - unfold eq, SFeqb. cbn. rewrite Z.compare_refl, Pos.compare_cont_refl. reflexivity.
Qed.

(** [x + 0 == x] for every [x] that is a number. *)
Lemma eq_add_zero_r (x : float32) : is_nan x = false -> eq (add x zero) x = true.
Proof.
  destruct x as [[]|s| |s m e]; intros H; try reflexivity.
  - apply (eq_refl_finite (S754_infinity s)). reflexivity.
  - discriminate.
  - apply (eq_refl_finite (S754_finite s m e)). reflexivity.
Qed.

(** A sum above zero has a term above zero. *)
Lemma add_gt_zero_inv (x y : float32) :
  gt (add x y) zero = true -> gt x zero = true \/ gt y zero = true.
Proof.
  destruct x as [[]|[]| |[] mx ex]; destruct y as [[]|[]| |[] my ey];
    try (intros H; discriminate H);
    try (intros _; left; reflexivity);
    try (intros _; right; reflexivity).
  intros H. unfold add in H.
  rewrite (gt_zero_signed _ (SFadd_neg_neg prec emax mx my ex ey)) in H.
  discriminate.
Qed.

(** Of two rates that are at least zero, one being above zero, the sum is
    above zero: rounding to nearest cannot take such a sum down to zero,
    and a sum too large is plus infinity. *)
Lemma add_gt_zero (x y : float32) :
  nonneg x = true -> nonneg y = true ->
  gt x zero || gt y zero = true -> gt (add x y) zero = true.
Proof.
  unfold nonneg. intros Hx Hy H.
  apply andb_prop in Hx, Hy. destruct Hx as [Vx Gx], Hy as [Vy Gy].
  destruct x as [sx|[]| |[] mx ex]; try discriminate Gx;
    destruct y as [sy|[]| |[] my ey]; try discriminate Gy;
    try reflexivity.
  - destruct sx, sy; discriminate H.
  - apply gt_zero_above. apply (SFadd_pos_pos prec emax prec32_pos mx my ex ey Vx Vy).
Qed.
End Float32Facts.

(** ** Go maps *)

Section GoMapFacts.
Context {V : Type}.

Lemma assoc_In (k : string) (l : list (string * V)) (v : V) :
  assoc k l = Some v -> In (k, v) l.
Proof.
  induction l as [|[k' v'] l IH]; cbn [assoc]; [discriminate|].
  destruct (String.eqb k k') eqn:E.
  - apply String.eqb_eq in E. intros [= ->]. subst. left. reflexivity.
  - intros H. right. auto.
Qed.

Lemma In_assoc (k : string) (l : list (string * V)) (v : V) :
  In (k, v) l -> exists v', assoc k l = Some v'.
Proof.
  induction l as [|[k' v'] l IH]; cbn [assoc In]; [contradiction|].
  intros [[= -> ->]|H].
  - rewrite String.eqb_refl. eauto.
  - destruct (String.eqb k k'); eauto.
Qed.

Lemma lookup_In (m : gomap V) (k : string) (v : V) :
  lookup m k = Some v -> In (k, v) (range m).
Proof. destruct m as [l|]; cbn; [apply assoc_In|discriminate]. Qed.

Lemma index_ok (z : V) (m : gomap V) (k : string) (v : V) :
  index z m k = (v, true) -> lookup m k = Some v.
Proof. unfold index. destruct (lookup m k); intros [= ->]. reflexivity. Qed.

Lemma index_missing (z : V) (m : gomap V) (k : string) (v : V) :
  index z m k = (v, false) -> lookup m k = None /\ v = z.
Proof. unfold index. destruct (lookup m k); intros [= <-]. auto. Qed.

Lemma isNil_range (m : gomap V) : isNil m = true -> range m = [].
Proof. destruct m; [discriminate|reflexivity]. Qed.
End GoMapFacts.

(** ** The two caches and the area *)

Ltac run :=
  unfold bind, orErrorf, ret, fail, lift, this, now; cbn beta iota.

Section CacheFacts.
Context {rt : Runtime}.

Lemma keeps_refl (w : World) : keeps w w.
Proof. repeat split. Qed.

Lemma keeps_trans (w1 w2 w3 : World) : keeps w1 w2 -> keeps w2 w3 -> keeps w1 w3.
Proof.
  unfold keeps. intros (A1 & B1 & C1 & D1) (A2 & B2 & C2 & D2).
  repeat split; congruence.
Qed.

Lemma keeps_now (w w' : World) (t : Time) : now w = (w', Ok t) -> keeps w w'.
Proof. unfold now. intros [= <- _]. repeat split. Qed.

(** [getSalesTaxRates] hands out the table of the receiver or fails on the
    embedded data; it reads no clock, and asked again it answers alike. *)
Lemma getSalesTaxRates_spec (w w' : World) (r : result (gomap taxRate)) :
  getSalesTaxRates w = (w', r) ->
  keeps w w' /\ clockReads w' = clockReads w
  /\ match r with
     | Ok rates => rates = ratesOf (self w) /\ getSalesTaxRates w' = (w', Ok rates)
     | Err e => exists msg, e = Errorf "failed to unmarshal data" (JSONError msg)
     end.
Proof.
  destruct w as [[o g rc tr] n].
  unfold getSalesTaxRates, set_taxRates, keeps, ratesOf, regionsOf. run. cbn.
  destruct tr as [l|]; cbn.
  - intros [= <- <-]. cbn. auto.
  - destruct unmarshal_salesTaxRatesData as [m [msg|]] eqn:U; cbn;
      intros [= <- <-]; cbn.
    + repeat split; eauto; destruct m; reflexivity.
    + repeat split; destruct m; reflexivity.
Qed.

Lemma getRegionCountries_spec (w w' : World) (r : result (gomap (list string))) :
  getRegionCountries w = (w', r) ->
  keeps w w' /\ clockReads w' = clockReads w
  /\ match r with
     | Ok regions => regions = regionsOf (self w)
     | Err e => exists msg, e = Errorf "failed to unmarshal data" (JSONError msg)
     end.
Proof.
  destruct w as [[o g rc tr] n].
  unfold getRegionCountries, set_regionCountries, keeps, ratesOf, regionsOf. run. cbn.
  destruct rc as [l|]; cbn.
  - intros [= <- <-]. cbn. auto.
  - destruct unmarshal_regionCountriesData as [m [msg|]] eqn:U; cbn;
      intros [= <- <-]; cbn.
    + repeat split; eauto; destruct m; reflexivity.
    + repeat split; destruct m; reflexivity.
Qed.

(** [getTargetArea] answers by the region table, or fails on the embedded
    data. *)
Lemma getTargetArea_spec (countryCode : string) (w w' : World) (r : result TaxArea) :
  getTargetArea countryCode w = (w', r) ->
  keeps w w' /\ clockReads w' = clockReads w
  /\ match r with
     | Ok area => area = areaOf (self w) countryCode
     | Err e => exists msg, Unwrap e = JSONError msg
     end.
Proof.
  unfold getTargetArea, areaOf. run.
  destruct (OriginCountryCode (self w)) as [origin|].
  - destruct (String.eqb origin countryCode).
    + intros [= <- <-]. auto using keeps_refl.
    + destruct (getRegionCountries w) as [w1 [regions|e]] eqn:G;
        apply getRegionCountries_spec in G; destruct G as (K & C & G);
        intros [= <- <-]; refine (conj K (conj C _)).
      * subst. reflexivity.
      * destruct G as [msg ->]. cbn. eauto.
  - intros [= <- <-]. auto using keeps_refl.
Qed.

Lemma areaOf_keeps (w w' : World) (countryCode : string) :
  keeps w w' -> areaOf (self w') countryCode = areaOf (self w) countryCode.
Proof. unfold areaOf. intros (-> & _ & _ & ->). reflexivity. Qed.
End CacheFacts.

(** ** The rate resolver *)

Section ResolverFacts.
Context {rt : Runtime}.

Lemma nearest_step (instant : Time) (seen : list (string * taxRate)) (k : string)
    (v : taxRate) (T : Time) (key : option string) (date : option Time) :
  nearest instant seen key date -> parseKey k = Some T ->
  nearest instant (seen ++ [(k, v)])%list
    (if Before instant T
     then if match date with None => true | Some a => Before T a end
          then Some k else key
     else key)
    (if Before instant T
     then if match date with None => true | Some a => Before T a end
          then Some T else date
     else date).
Proof.
  unfold Before. intros N P.
  destruct key as [key|], date as [date|]; cbn [nearest] in N; try contradiction.
  - destruct N as ((v0 & I) & PK & A & Min).
    destruct (instant <? T) eqn:E1; [destruct (T <? date) eqn:E2|];
      cbn [nearest]; try apply Z.ltb_lt in E1; try apply Z.ltb_lt in E2;
      try apply Z.ltb_ge in E1; try apply Z.ltb_ge in E2.
    + split; [exists v; apply in_or_app; right; left; reflexivity|].
      split; [assumption|]. split; [assumption|].
      intros k' v' T' I' P' A'. apply in_app_or in I'. destruct I' as [I'|[[= <- <-]|[]]].
      * specialize (Min _ _ _ I' P' A'). lia.
      * rewrite P in P'. injection P' as <-. lia.
    + split; [exists v0; apply in_or_app; left; assumption|].
      split; [assumption|]. split; [assumption|].
      intros k' v' T' I' P' A'. apply in_app_or in I'. destruct I' as [I'|[[= <- <-]|[]]].
      * exact (Min _ _ _ I' P' A').
      * rewrite P in P'. injection P' as <-. lia.
    + split; [exists v0; apply in_or_app; left; assumption|].
      split; [assumption|]. split; [assumption|].
      intros k' v' T' I' P' A'. apply in_app_or in I'. destruct I' as [I'|[[= <- <-]|[]]].
      * exact (Min _ _ _ I' P' A').
      * rewrite P in P'. injection P' as <-. lia.
  - destruct (instant <? T) eqn:E1; cbn [nearest];
      try apply Z.ltb_lt in E1; try apply Z.ltb_ge in E1.
    + split; [exists v; apply in_or_app; right; left; reflexivity|].
      split; [assumption|]. split; [assumption|].
      intros k' v' T' I' P' A'. apply in_app_or in I'. destruct I' as [I'|[[= <- <-]|[]]].
      * specialize (N _ _ _ I' P'). lia.
      * rewrite P in P'. injection P' as <-. lia.
    + intros k' v' T' I' P'. apply in_app_or in I'. destruct I' as [I'|[[= <- <-]|[]]].
      * exact (N _ _ _ I' P').
      * rewrite P in P'. injection P' as <-. lia.
Qed.

(** The loop keeps [nearest] from binding to binding. *)
Lemma rangePreviousRecordings_nearest (instant : Time) (l : list (string * taxRate)) :
  forall seen key date key' date',
    nearest instant seen key date ->
    rangePreviousRecordings instant l key date = Ok (key', date') ->
    nearest instant (seen ++ l)%list key' date'.
Proof.
  induction l as [|[k v] l IH]; intros seen key date key' date' N R.
  - cbn in R. injection R as <- <-. rewrite app_nil_r. assumption.
  - cbn [rangePreviousRecordings] in R.
    fold (parseKey k) in R.
    destruct (parseKey k) as [T|] eqn:P; [|discriminate].
    pose proof (@nearest_step instant seen k v T key date N P) as N'.
    replace (seen ++ (k, v) :: l)%list with ((seen ++ [(k, v)]) ++ l)%list
      by (rewrite <- app_assoc; reflexivity).
    destruct (Before instant T); [destruct (match date with None => true | Some a => Before T a end)|];
      eapply IH; eassumption.
Qed.

(** The loop fails exactly on a history with a key that does not parse,
    and then with the error of [time.Parse] on such a key. *)
Lemma rangePreviousRecordings_ok (instant : Time) (l : list (string * taxRate)) :
  (forall k v, In (k, v) l -> parseKey k <> None) ->
  forall key date, exists key' date',
    rangePreviousRecordings instant l key date = Ok (key', date').
Proof.
  induction l as [|[k v] l IH]; intros All key date; cbn [rangePreviousRecordings].
  - eauto.
  - fold (parseKey k).
    destruct (parseKey k) as [T|] eqn:P.
    + assert (All' : forall k v, In (k, v) l -> parseKey k <> None)
        by (intros k0 v0 I; apply (All k0 v0); right; assumption).
      destruct (Before instant T); [destruct (match date with None => true | Some a => Before T a end)|];
        apply IH; assumption.
    + exfalso. apply (All k v); [left; reflexivity|assumption].
Qed.

Lemma rangePreviousRecordings_err (instant : Time) (l : list (string * taxRate)) :
  forall key date e,
    rangePreviousRecordings instant l key date = Err e ->
    exists k v, In (k, v) l /\ parseKey k = None
                /\ e = Errorf ("failed to parse date " ++ k) (ParseError dateLayout k).
Proof.
  induction l as [|[k v] l IH]; intros key date e; cbn [rangePreviousRecordings].
  - discriminate.
  - fold (parseKey k).
    destruct (parseKey k) as [T|] eqn:P.
    + intros R.
      assert (exists k0 v0, In (k0, v0) l /\ parseKey k0 = None
                /\ e = Errorf ("failed to parse date " ++ k0) (ParseError dateLayout k0))
        as (k0 & v0 & I & P0 & E).
      { destruct (Before instant T);
          [destruct (match date with None => true | Some a => Before T a end)|];
          eapply IH; eassumption. }
      exists k0, v0. split; [right; assumption|auto].
    + intros [= <-]. exists k, v. split; [left; reflexivity|auto].
Qed.

(** [getSalesTaxRate] as one equation, on a table that loads. *)
Lemma getSalesTaxRate_eq (countryCode : string) (w w1 : World) (rates : gomap taxRate) :
  getSalesTaxRates w = (w1, Ok rates) ->
  getSalesTaxRate countryCode w =
  match lookup rates countryCode with
  | None => (w1, Ok defaultTaxRate)
  | Some top =>
      (if isNil (PreviousRecordings top) then w1 else tick w1,
       resolveAt (currentTime (clockReads w1)) top)
  end.
Proof.
  intros L. unfold getSalesTaxRate, index, resolveAt, tick. run. rewrite L.
  destruct (lookup rates countryCode) as [top|]; cbn; [|reflexivity].
  destruct (PreviousRecordings top) as [recordings|]; cbn; [|reflexivity].
  destruct (rangePreviousRecordings _ recordings None None) as [[[key|] date]|e];
    reflexivity.
Qed.

Lemma getSalesTaxRate_load_err (countryCode : string) (w w1 : World) (e : error) :
  getSalesTaxRates w = (w1, Err e) ->
  getSalesTaxRate countryCode w = (w1, Err (Errorf "failed to get sales tax rates" e)).
Proof. intros L. unfold getSalesTaxRate. run. rewrite L. reflexivity. Qed.

(** On a record with a history, the resolver returns the entry of the
    earliest key after the instant, the record itself when no key is after
    it, and the error of the first key met that does not parse. *)
Lemma resolveAt_spec (instant : Time) (top : taxRate) (recordings : list (string * taxRate)) :
  PreviousRecordings top = Some recordings ->
  match resolveAt instant top with
  | Ok r =>
      (exists key date, nearest instant recordings (Some key) (Some date)
                        /\ In (key, r) recordings)
      \/ (r = top /\ nearest instant recordings None None)
  | Err e =>
      exists k v, In (k, v) recordings /\ parseKey k = None
                  /\ e = Errorf ("failed to parse date " ++ k) (ParseError dateLayout k)
  end.
Proof.
  intros H. unfold resolveAt, index. rewrite H.
  destruct (rangePreviousRecordings instant recordings None None)
    as [[key date]|e] eqn:R.
  - assert (N0 : nearest instant [] None None) by (intros k v T []).
    pose proof (rangePreviousRecordings_nearest instant recordings [] None None _ _ N0 R) as N.
    cbn [app] in N.
    destruct key as [key|], date as [date|]; cbn [nearest] in N; try contradiction.
    + left. destruct N as ((v & I) & N).
      destruct (In_assoc _ _ _ I) as (v' & A). cbn [lookup]. rewrite A. cbn [fst].
      exists key, date. split.
      * cbn [nearest]. split; [eauto|assumption].
      * apply assoc_In. assumption.
    + right. split; [reflexivity|assumption].
  - apply (rangePreviousRecordings_err _ _ _ _ _ R).
Qed.

(** The record resolved is the record itself or one of its history. *)
Lemma resolveAt_ok (instant : Time) (top r : taxRate) :
  resolveAt instant top = Ok r ->
  r = top \/ exists k, In (k, r) (range (PreviousRecordings top)).
Proof.
  destruct (PreviousRecordings top) as [recordings|] eqn:H.
  - intros R. pose proof (resolveAt_spec instant top _ H) as S. rewrite R in S.
    destruct S as [(key & date & _ & I)|[-> _]]; [right; exists key; assumption|auto].
  - unfold resolveAt. rewrite H. intros [= <-]. auto.
Qed.

Lemma resolveAt_err (instant : Time) (top : taxRate) (e : error) :
  resolveAt instant top = Err e ->
  exists k v, In (k, v) (range (PreviousRecordings top)) /\ parseKey k = None
              /\ e = Errorf ("failed to parse date " ++ k) (ParseError dateLayout k).
Proof.
  destruct (PreviousRecordings top) as [recordings|] eqn:H.
  - intros R. pose proof (resolveAt_spec instant top _ H) as S. rewrite R in S. exact S.
  - unfold resolveAt. rewrite H. discriminate.
Qed.

(** With every key parsing, the resolver returns a record. *)
Lemma resolveAt_total (instant : Time) (top : taxRate) :
  (forall k v, In (k, v) (range (PreviousRecordings top)) -> parseKey k <> None) ->
  exists r, resolveAt instant top = Ok r.
Proof.
  intros All. destruct (resolveAt instant top) as [r|e] eqn:R; [eauto|].
  destruct (resolveAt_err _ _ _ R) as (k & v & I & P & _).
  exfalso. exact (All k v I P).
Qed.

(** What a call of [getSalesTaxRate] leaves and returns. *)
Lemma getSalesTaxRate_spec (countryCode : string) (w w' : World) (r : result taxRate) :
  getSalesTaxRate countryCode w = (w', r) ->
  keeps w w'
  /\ match r with
     | Ok rate => fromTable (ratesOf (self w)) countryCode rate
     | Err e => dataError (ratesOf (self w)) e
     end.
Proof.
  destruct (getSalesTaxRates w) as [w1 [rates|e]] eqn:L;
    pose proof (getSalesTaxRates_spec _ _ _ L) as (K & _ & S).
  - destruct S as [-> _]. rewrite (getSalesTaxRate_eq countryCode _ _ _ L).
    unfold fromTable.
    destruct (lookup (ratesOf (self w)) countryCode) as [top|] eqn:E.
    + intros [= <- <-]. split.
      * destruct (isNil (PreviousRecordings top)); [assumption|].
        destruct K as (A & B & C & D). repeat split; assumption.
      * destruct (resolveAt (currentTime (clockReads w1)) top) as [rate|e] eqn:R.
        -- apply (resolveAt_ok _ _ _ R).
        -- right. destruct (resolveAt_err _ _ _ R) as (k & v & I & P & ->).
           exists countryCode, top, k, v. cbn. auto.
    + intros [= <- <-]. auto.
  - rewrite (getSalesTaxRate_load_err countryCode _ _ _ L). intros [= <- <-]. unfold dataError.
    split; [assumption|]. left. destruct S as [msg ->]. cbn. eauto.
Qed.

Lemma getSalesTaxRate_resolvable (countryCode : string) (w w' : World) (r : taxRate) :
  getSalesTaxRate countryCode w = (w', Ok r) ->
  resolvable (ratesOf (self w)) countryCode r.
Proof.
  destruct (getSalesTaxRates w) as [w1 [rates|e]] eqn:L;
    pose proof (getSalesTaxRates_spec _ _ _ L) as (_ & _ & S).
  - destruct S as [-> _]. rewrite (getSalesTaxRate_eq countryCode _ _ _ L).
    unfold resolvable.
    destruct (lookup (ratesOf (self w)) countryCode) as [top|].
    + intros [= _ R]. eauto.
    + intros [= _ <-]. reflexivity.
  - rewrite (getSalesTaxRate_load_err countryCode _ _ _ L). discriminate.
Qed.
End ResolverFacts.

(** ** The exchange classifier and the composer *)

Section ComposerFacts.
Context {rt : Runtime}.

Import Float32.

Lemma dataError_Errorf (rates : gomap taxRate) (context : string) (e : error) :
  dataError rates e -> dataError rates (Errorf context e).
Proof. intros H. exact H. Qed.

Lemma dataError_keeps (w w' : World) (e : error) :
  keeps w w' -> dataError (ratesOf (self w')) e -> dataError (ratesOf (self w)) e.
Proof. intros (_ & _ & -> & _) H. exact H. Qed.

(** The total of [hasTotalSalesTax] is above zero exactly when the combined
    rate of the specification is: adding the rate of the no-tax record
    changes nothing in the comparison. *)
Lemma gt_total_combined (rate : taxRate) (stateCode : option string) :
  gt match stateCode with
     | Some code =>
         let '(rate', ok) := index zeroTaxRate (States rate) code in
         if ok then add (TaxRate rate) (TaxRate rate') else TaxRate rate
     | None => TaxRate rate
     end zero
  = gt (combinedRate rate stateCode) zero.
Proof.
  unfold combinedRate, stateComponent, index.
  destruct stateCode as [code|].
  - destruct (lookup (States rate) code) as [r|]; [reflexivity|].
    cbn [TaxRate defaultTaxRate]. symmetry. apply Float32Facts.gt_add_zero_r.
  - cbn [TaxRate defaultTaxRate]. symmetry. apply Float32Facts.gt_add_zero_r.
Qed.

Lemma hasTotalSalesTax_eq (countryCode : string) (stateCode : option string) (w : World) :
  hasTotalSalesTax countryCode stateCode w =
  match getSalesTaxRate (strings_ToUpper countryCode) w with
  | (w', Ok rate) =>
      (w', Ok (gt (combinedRate rate (option_map strings_ToUpper stateCode)) zero))
  | (w', Err e) =>
      (w', Err (Errorf ("failed to get country tax rate for "
                        ++ strings_ToUpper countryCode) e))
  end.
Proof.
  unfold hasTotalSalesTax. run.
  destruct (getSalesTaxRate (strings_ToUpper countryCode) w) as [w' [rate|e]];
    [|reflexivity].
  rewrite gt_total_combined. reflexivity.
Qed.

Lemma getTaxExchangeStatus_eq (countryCode : string) (stateCode taxNumber : option string)
    (w w1 w2 : World) (area : TaxArea) (rate : taxRate) :
  getTargetArea countryCode w = (w1, Ok area) ->
  getSalesTaxRate (strings_ToUpper countryCode) w1 = (w2, Ok rate) ->
  getTaxExchangeStatus countryCode stateCode taxNumber w =
  (w2, Ok (exchangeStatus_spec area rate (option_map strings_ToUpper stateCode) taxNumber)).
Proof.
  intros A R. unfold getTaxExchangeStatus, exchangeStatus_spec. run.
  rewrite A, hasTotalSalesTax_eq, R.
  destruct (gt (combinedRate rate (option_map strings_ToUpper stateCode)) zero);
    cbn [negb]; [destruct (notNil taxNumber)|]; reflexivity.
Qed.

(** What a call of [getTaxExchangeStatus] leaves and returns. *)
Lemma getTaxExchangeStatus_spec (countryCode : string) (stateCode taxNumber : option string)
    (w w' : World) (r : result (TaxExchange * bool)) :
  getTaxExchangeStatus countryCode stateCode taxNumber w = (w', r) ->
  keeps w w'
  /\ match r with
     | Ok status =>
         exists rate,
           fromTable (ratesOf (self w)) (strings_ToUpper countryCode) rate
           /\ status = exchangeStatus_spec (areaOf (self w) countryCode) rate
                         (option_map strings_ToUpper stateCode) taxNumber
     | Err e => dataError (ratesOf (self w)) e
     end.
Proof.
  destruct (getTargetArea countryCode w) as [w1 [area|e]] eqn:A;
    pose proof (getTargetArea_spec _ _ _ _ A) as (K1 & _ & S1).
  - destruct (getSalesTaxRate (strings_ToUpper countryCode) w1) as [w2 [rate|e]] eqn:R;
      pose proof (getSalesTaxRate_spec _ _ _ _ R) as (K2 & S2).
    + rewrite (getTaxExchangeStatus_eq _ stateCode taxNumber _ _ _ _ _ A R).
      intros [= <- <-]. split; [eapply keeps_trans; eassumption|].
      exists rate. destruct K1 as (_ & _ & <- & _). subst area. auto.
    + unfold getTaxExchangeStatus. run. rewrite A, hasTotalSalesTax_eq, R.
      intros [= <- <-]. split; [eapply keeps_trans; eassumption|].
      apply dataError_Errorf, dataError_Errorf.
      eapply dataError_keeps; eassumption.
  - unfold getTaxExchangeStatus. run. rewrite A. intros [= <- <-].
    split; [assumption|]. left. exact S1.
Qed.

(** The first branch of [selectTaxRates]: the rate of the origin country and
    the default record. *)
Lemma selectTaxRates_origin (countryCode origin : string) (stateCode : option string)
    (w : World) :
  OriginCountryCode (self w) = Some origin ->
  RegionalTaxEnabled (self w) = false ->
  selectTaxRates TaxAreaRegional countryCode stateCode w =
  match getSalesTaxRate origin w with
  | (w', Ok countryTax) => (w', Ok (countryTax, defaultTaxRate))
  | (w', Err e) => (w', Err (Errorf ("failed to get country tax rate for " ++ origin) e))
  end.
Proof.
  intros O R. unfold selectTaxRates. run. rewrite O, R. cbn.
  destruct (getSalesTaxRate origin w) as [w' [countryTax|e]]; reflexivity.
Qed.

(** The second branch: the rate of the destination, and for the state what
    the per-state table has under the code, the zero value included. *)
Lemma selectTaxRates_destination (area : TaxArea) (countryCode : string)
    (stateCode : option string) (w : World) :
  TaxArea_eqb area TaxAreaRegional && negb (RegionalTaxEnabled (self w))
  && notNil (OriginCountryCode (self w)) = false ->
  selectTaxRates area countryCode stateCode w =
  match getSalesTaxRate countryCode w with
  | (w', Ok countryTax) =>
      (w', Ok (countryTax,
               match negb (isNil (States countryTax)), stateCode with
               | true, Some code => fst (index zeroTaxRate (States countryTax) code)
               | _, _ => defaultTaxRate
               end))
  | (w', Err e) =>
      (w', Err (Errorf ("failed to get country tax rate for " ++ countryCode) e))
  end.
Proof.
  intros C. unfold selectTaxRates. run.
  assert (E : forall (X : Type) (a b : X),
             match TaxArea_eqb area TaxAreaRegional && negb (RegionalTaxEnabled (self w)),
                   OriginCountryCode (self w) with
             | true, Some _ => a
             | _, _ => b
             end = b).
  { intros X a b.
    destruct (TaxArea_eqb area TaxAreaRegional && negb (RegionalTaxEnabled (self w)));
      destruct (OriginCountryCode (self w)); try reflexivity; discriminate C. }
  destruct (TaxArea_eqb area TaxAreaRegional && negb (RegionalTaxEnabled (self w))) eqn:B;
    destruct (OriginCountryCode (self w)) as [origin|] eqn:O; try discriminate C;
    destruct (getSalesTaxRate countryCode w) as [w' [countryTax|e]]; try reflexivity;
    destruct (isNil (States countryTax)); destruct stateCode as [code|]; cbn;
    try reflexivity;
    destruct (index zeroTaxRate (States countryTax) code) as [tax ok]; reflexivity.
Qed.

(** What a call of [selectTaxRates] leaves and returns. *)
Lemma selectTaxRates_spec (area : TaxArea) (countryCode : string) (stateCode : option string)
    (w w' : World) (r : result (taxRate * taxRate)) :
  selectTaxRates area countryCode stateCode w = (w', r) ->
  keeps w w'
  /\ match r with
     | Ok (countryTax, stateTax) =>
         (fromTable (ratesOf (self w)) countryCode countryTax
          \/ exists origin, OriginCountryCode (self w) = Some origin
                            /\ fromTable (ratesOf (self w)) origin countryTax)
         /\ (stateTax = defaultTaxRate \/ stateTax = zeroTaxRate
             \/ exists code, lookup (States countryTax) code = Some stateTax)
     | Err e => dataError (ratesOf (self w)) e
     end.
Proof.
  destruct (TaxArea_eqb area TaxAreaRegional && negb (RegionalTaxEnabled (self w))
            && notNil (OriginCountryCode (self w))) eqn:C.
  - apply andb_prop in C. destruct C as [C O]. apply andb_prop in C. destruct C as [A R].
    destruct area; try discriminate A.
    destruct (OriginCountryCode (self w)) as [origin|] eqn:EO; [|discriminate O].
    apply negb_true_iff in R.
    rewrite (selectTaxRates_origin countryCode origin stateCode w EO R).
    destruct (getSalesTaxRate origin w) as [w1 [countryTax|e]] eqn:G;
      pose proof (getSalesTaxRate_spec _ _ _ _ G) as (K & S); intros [= <- <-];
      (split; [assumption|]).
    + split; [right; exists origin; auto|left; reflexivity].
    + exact S.
  - rewrite (selectTaxRates_destination area countryCode stateCode w C).
    destruct (getSalesTaxRate countryCode w) as [w1 [countryTax|e]] eqn:G;
      pose proof (getSalesTaxRate_spec _ _ _ _ G) as (K & S); intros [= <- <-];
      (split; [assumption|]).
    + split; [left; assumption|].
      destruct (isNil (States countryTax)); cbn [negb]; [left; reflexivity|].
      destruct stateCode as [code|]; [|left; reflexivity].
      unfold index. destruct (lookup (States countryTax) code) as [tax|] eqn:L; cbn [fst].
      * right. right. exists code. assumption.
      * right. left. reflexivity.
    + exact S.
Qed.

(** A decision of [GetSalesTax] taken apart: the area, the two rates chosen,
    the status when one of them is above zero, and the fields composed. *)
Lemma GetSalesTax_inv (countryCode : string) (stateCode taxNumber : option string)
    (w w' : World) (d : SalesTax) :
  GetSalesTax countryCode stateCode taxNumber w = (w', Ok d) ->
  exists w1 w2 area countryTax stateTax taxExchange isExempt,
    getTargetArea (strings_ToUpper countryCode) w = (w1, Ok area)
    /\ selectTaxRates area (strings_ToUpper countryCode)
         (option_map strings_ToUpper stateCode) w1 = (w2, Ok (countryTax, stateTax))
    /\ (if gt (TaxRate countryTax) zero || gt (TaxRate stateTax) zero
        then getTaxExchangeStatus (strings_ToUpper countryCode)
               (option_map strings_ToUpper stateCode) taxNumber w2
             = (w', Ok (taxExchange, isExempt))
        else w' = w2 /\ taxExchange = TaxExchangeConsumer /\ isExempt = false)
    /\ Type_ d = (if gt (TaxRate stateTax) zero
                  then if gt (TaxRate countryTax) zero
                       then Sprintf_plus (TaxType countryTax) (TaxType stateTax)
                       else TaxType stateTax
                  else TaxType countryTax)
    /\ Rate d = add (TaxRate countryTax) (TaxRate stateTax)
    /\ Area d = area
    /\ Exchange d = taxExchange
    /\ Charge d = (if negb (String.eqb (Type_ d) "none")
                   then mkTaxCharge (negb isExempt)
                          (isExempt && gt (add (TaxRate countryTax) (TaxRate stateTax)) zero)
                   else mkTaxCharge false false).
Proof.
  unfold GetSalesTax. run.
  destruct (getTargetArea (strings_ToUpper countryCode) w) as [w1 [area|e]] eqn:A;
    [|discriminate].
  destruct (selectTaxRates area (strings_ToUpper countryCode)
              (option_map strings_ToUpper stateCode) w1)
    as [w2 [[countryTax stateTax]|e]] eqn:S; [|discriminate].
  destruct (gt (TaxRate countryTax) zero || gt (TaxRate stateTax) zero) eqn:G.
  - destruct (getTaxExchangeStatus (strings_ToUpper countryCode)
                (option_map strings_ToUpper stateCode) taxNumber w2)
      as [w3 [[taxExchange isExempt]|e]] eqn:X; [|discriminate].
    intros [= <- <-].
    exists w1, w2, area, countryTax, stateTax, taxExchange, isExempt.
    rewrite G. split; [reflexivity|]. split; [exact S|]. split; [exact X|].
    repeat split.
  - intros [= <- <-].
    exists w1, w2, area, countryTax, stateTax, TaxExchangeConsumer, false.
    rewrite G. split; [reflexivity|]. split; [exact S|]. repeat split.
Qed.
End ComposerFacts.

(** ** Properties of the rate resolver *)

Section ResolverProperties.
Context {rt : Runtime}.

(** C9: for a country code that the rate table does not have, the rate
    resolver returns the no-tax record, whose type is "none", whose rate is
    0 and which has neither per-state table nor history, and it reports no
    error. *)
Theorem C9_absent_country_default (countryCode : string) (w w1 : World)
    (rates : gomap taxRate) :
  getSalesTaxRates w = (w1, Ok rates) ->
  lookup rates countryCode = None ->
  getSalesTaxRate countryCode w = (w1, Ok defaultTaxRate)
  /\ TaxType defaultTaxRate = "none"%string
  /\ TaxRate defaultTaxRate = Float32.zero
  /\ PreviousRecordings defaultTaxRate = None
  /\ States defaultTaxRate = None.
Proof.
  intros L A. rewrite (getSalesTaxRate_eq countryCode _ _ _ L), A.
  repeat split.
Qed.

(** The resolver on a country of the table whose history keys all parse:
    shared by the statements below. *)
Lemma getSalesTaxRate_history (countryCode : string) (w w1 : World)
    (rates : gomap taxRate) (top : taxRate) :
  getSalesTaxRates w = (w1, Ok rates) ->
  lookup rates countryCode = Some top ->
  (forall k v, In (k, v) (range (PreviousRecordings top)) -> parseKey k <> None) ->
  exists w' r,
    getSalesTaxRate countryCode w = (w', Ok r)
    /\ ((exists key date,
           In (key, r) (range (PreviousRecordings top))
           /\ parseKey key = Some date
           /\ currentTime (clockReads w1) < date
           /\ forall k v T, In (k, v) (range (PreviousRecordings top)) ->
                            parseKey k = Some T ->
                            currentTime (clockReads w1) < T -> date <= T)
        \/ (r = top
            /\ forall k v T, In (k, v) (range (PreviousRecordings top)) ->
                             parseKey k = Some T -> T <= currentTime (clockReads w1))).
Proof.
  intros L A All. rewrite (getSalesTaxRate_eq countryCode _ _ _ L), A.
  destruct (resolveAt_total (currentTime (clockReads w1)) top All) as [r R].
  rewrite R. eexists _, r. split; [reflexivity|].
  destruct (PreviousRecordings top) as [recordings|] eqn:H.
  - pose proof (resolveAt_spec (currentTime (clockReads w1)) top _ H) as S.
    rewrite R in S. cbn [range].
    destruct S as [(key & date & N & I)|[-> N]].
    + left. exists key, date. cbn [nearest] in N. destruct N as (_ & P & B & Min).
      auto.
    + right. split; [reflexivity|exact N].
  - right. unfold resolveAt in R. rewrite H in R. injection R as <-.
    split; [reflexivity|]. intros k v T [].
Qed.

(** C1: for a country of the rate table whose history keys all parse, the
    resolver returns the history entry whose key is the earliest instant
    strictly after the instant of the query, and the top-level record when
    no key is strictly after it or there is no history.  With one key [T]
    for the record [old], a query strictly before [T] gives [old] and a
    query at or after [T] gives the top-level record. *)
Theorem C1_history_resolution (countryCode : string) (w w1 : World)
    (rates : gomap taxRate) (top : taxRate) :
  getSalesTaxRates w = (w1, Ok rates) ->
  lookup rates countryCode = Some top ->
  (forall k v, In (k, v) (range (PreviousRecordings top)) -> parseKey k <> None) ->
  (exists w' r,
     getSalesTaxRate countryCode w = (w', Ok r)
     /\ ((exists key date,
            In (key, r) (range (PreviousRecordings top))
            /\ parseKey key = Some date
            /\ currentTime (clockReads w1) < date
            /\ forall k v T, In (k, v) (range (PreviousRecordings top)) ->
                             parseKey k = Some T ->
                             currentTime (clockReads w1) < T -> date <= T)
         \/ (r = top
             /\ forall k v T, In (k, v) (range (PreviousRecordings top)) ->
                              parseKey k = Some T -> T <= currentTime (clockReads w1))))
  /\ (forall key old T,
        PreviousRecordings top = Some [(key, old)] ->
        parseKey key = Some T ->
        exists w',
          getSalesTaxRate countryCode w
          = (w', Ok (if currentTime (clockReads w1) <? T then old else top))).
Proof.
  intros L A All.
  destruct (getSalesTaxRate_history countryCode w w1 rates top L A All)
    as (w' & r & E & S).
  split; [exists w', r; auto|].
  intros key old T H P. exists w'. rewrite E. do 2 f_equal.
  rewrite H in S. cbn [range] in S.
  destruct S as [(key' & date & I & P' & B & _)|[-> Min]].
  - destruct I as [[= <- <-]|[]]. rewrite P in P'. injection P' as <-.
    apply Z.ltb_lt in B. rewrite B. reflexivity.
  - assert (B : T <= currentTime (clockReads w1))
      by (apply (Min key old T); [left; reflexivity|assumption]).
    apply Z.ltb_ge in B. rewrite B. reflexivity.
Qed.
End ResolverProperties.

(** ** Properties of the errors *)

Section ErrorProperties.
Context {rt : Runtime}.

(** A loop that came to its end met no key that does not parse. *)
Lemma rangePreviousRecordings_parsed (instant : Time) (l : list (string * taxRate)) :
  forall key date p,
    rangePreviousRecordings instant l key date = Ok p ->
    forall k v, In (k, v) l -> parseKey k <> None.
Proof.
  induction l as [|[k0 v0] l IH]; intros key date p R k v I; [destruct I|].
  cbn [rangePreviousRecordings] in R. fold (parseKey k0) in R.
  destruct (parseKey k0) as [T|] eqn:P; [|discriminate].
  destruct I as [[= <- <-]|I]; [congruence|].
  destruct (Before instant T);
    [destruct (match date with None => true | Some a => Before T a end)|];
    eapply IH; eassumption.
Qed.

Lemma resolveAt_parsed (instant : Time) (top r : taxRate) :
  resolveAt instant top = Ok r ->
  forall k v, In (k, v) (range (PreviousRecordings top)) -> parseKey k <> None.
Proof.
  unfold resolveAt.
  destruct (PreviousRecordings top) as [recordings|]; [|intros _ k v []].
  destruct (rangePreviousRecordings instant recordings None None) as [p|e] eqn:R;
    [|discriminate].
  intros _. exact (rangePreviousRecordings_parsed _ _ _ _ _ R).
Qed.

(** Every error of [GetSalesTax] has one of the two causes. *)
Lemma GetSalesTax_err (countryCode : string) (stateCode taxNumber : option string)
    (w w' : World) (e : error) :
  GetSalesTax countryCode stateCode taxNumber w = (w', Err e) ->
  dataError (ratesOf (self w)) e.
Proof.
  unfold GetSalesTax. run.
  destruct (getTargetArea (strings_ToUpper countryCode) w) as [w1 [area|e1]] eqn:A;
    pose proof (getTargetArea_spec _ _ _ _ A) as (K1 & _ & S1).
  - destruct (selectTaxRates area (strings_ToUpper countryCode)
                (option_map strings_ToUpper stateCode) w1)
      as [w2 [[countryTax stateTax]|e2]] eqn:S;
      pose proof (selectTaxRates_spec _ _ _ _ _ _ S) as (K2 & S2).
    + destruct (Float32.gt (TaxRate countryTax) Float32.zero
                || Float32.gt (TaxRate stateTax) Float32.zero); [|discriminate].
      destruct (getTaxExchangeStatus (strings_ToUpper countryCode)
                  (option_map strings_ToUpper stateCode) taxNumber w2)
        as [w3 [[taxExchange isExempt]|e3]] eqn:X; [discriminate|].
      pose proof (getTaxExchangeStatus_spec _ _ _ _ _ _ X) as (_ & S3).
      intros [= <- <-]. apply dataError_Errorf.
      eapply dataError_keeps; [eassumption|].
      eapply dataError_keeps; eassumption.
    + intros [= <- <-]. eapply dataError_keeps; eassumption.
  - intros [= <- <-]. left. exact S1.
Qed.

(** C8: on a rate table that loads, rate resolution fails exactly when the
    country is in the table and a key of its history does not parse as a
    timestamp, and the error is then the one of the date parser.  Unknown
    countries, unknown states and absent tax numbers produce no error: an
    error of [GetSalesTax] is always an embedded file that does not load or
    a history key, of a country of the table, that does not parse. *)
Theorem C8_date_parse_error (countryCode : string) (w w1 : World) (rates : gomap taxRate) :
  getSalesTaxRates w = (w1, Ok rates) ->
  (exists w' r,
     getSalesTaxRate countryCode w = (w', r)
     /\ ((exists e, r = Err e)
         <-> (exists top k v,
                lookup rates countryCode = Some top
                /\ In (k, v) (range (PreviousRecordings top))
                /\ parseKey k = None))
     /\ (forall e, r = Err e -> isParseError e = true))
  /\ (forall stateCode taxNumber w' e,
        GetSalesTax countryCode stateCode taxNumber w = (w', Err e) ->
        dataError rates e).
Proof.
  intros L. pose proof (getSalesTaxRates_spec _ _ _ L) as (_ & _ & -> & _).
  split.
  - rewrite (getSalesTaxRate_eq countryCode _ _ _ L).
    destruct (lookup (ratesOf (self w)) countryCode) as [top|].
    + eexists _, _. split; [reflexivity|]. split; [split|].
      * intros [e R]. destruct (resolveAt_err _ _ _ R) as (k & v & I & P & _).
        exists top, k, v. auto.
      * intros (top' & k & v & [= <-] & I & P).
        destruct (resolveAt (currentTime (clockReads w1)) top) as [r|e] eqn:R; [|eauto].
        exfalso. exact (resolveAt_parsed _ _ _ R k v I P).
      * intros e R. destruct (resolveAt_err _ _ _ R) as (k & v & _ & _ & ->).
        reflexivity.
    + eexists _, _. split; [reflexivity|]. split; [split|].
      * intros [e [=]].
      * intros (top & k & v & [=] & _).
      * intros e [=].
  - intros stateCode taxNumber w' e. apply GetSalesTax_err.
Qed.
End ErrorProperties.

(** ** Properties of the exchange classifier and the composer *)

Section ComposerProperties.
Context {rt : Runtime}.

Import Float32.

(** C4: for every destination country, optional state code and optional tax
    number, the exchange classifier returns (Consumer, exempt) when the
    combined country-plus-state rate of the destination is not above zero,
    otherwise (Business, exempt exactly when the area is not National) when a
    tax number is given, and otherwise (Consumer, not exempt). *)
Theorem C4_exchange_status (countryCode : string) (stateCode taxNumber : option string)
    (w w1 w2 : World) (area : TaxArea) (rate : taxRate) :
  getTargetArea countryCode w = (w1, Ok area) ->
  getSalesTaxRate (strings_ToUpper countryCode) w1 = (w2, Ok rate) ->
  getTaxExchangeStatus countryCode stateCode taxNumber w
  = (w2, Ok (if negb (gt (combinedRate rate (option_map strings_ToUpper stateCode)) zero)
             then (TaxExchangeConsumer, true)
             else if notNil taxNumber
                  then (TaxExchangeBusiness, negb (TaxArea_eqb area TaxAreaNational))
                  else (TaxExchangeConsumer, false))).
Proof.
  intros A R.
  exact (getTaxExchangeStatus_eq countryCode stateCode taxNumber w w1 w2 area rate A R).
Qed.

(** C6: the rate of every decision of [GetSalesTax] is the sum of the rate of
    the country component and the rate of the state component, whatever the
    exemption: the charge flags and the exchange status carry the exemption,
    the rate is not set to zero. *)
Theorem C6_nominal_rate (countryCode : string) (stateCode taxNumber : option string)
    (w w' : World) (d : SalesTax) :
  GetSalesTax countryCode stateCode taxNumber w = (w', Ok d) ->
  exists w1 w2 area countryTax stateTax,
    getTargetArea (strings_ToUpper countryCode) w = (w1, Ok area)
    /\ selectTaxRates area (strings_ToUpper countryCode)
         (option_map strings_ToUpper stateCode) w1 = (w2, Ok (countryTax, stateTax))
    /\ Rate d = add (TaxRate countryTax) (TaxRate stateTax).
Proof.
  intros G.
  destruct (GetSalesTax_inv _ _ _ _ _ _ G)
    as (w1 & w2 & area & countryTax & stateTax & taxExchange & isExempt
        & A & S & _ & _ & R & _).
  exists w1, w2, area, countryTax, stateTax. auto.
Qed.

(** C2: with an origin country and regional taxation not enabled, for a
    destination of the Regional area [GetSalesTax] takes the current rate of
    the origin country as the country component and the no-tax record as the
    state component, and the rate and the type of the decision are those of
    the origin country. *)
Theorem C2_origin_rate_in_region (countryCode origin : string)
    (stateCode taxNumber : option string) (w w' : World) (d : SalesTax) :
  OriginCountryCode (self w) = Some origin ->
  RegionalTaxEnabled (self w) = false ->
  GetSalesTax countryCode stateCode taxNumber w = (w', Ok d) ->
  Area d = TaxAreaRegional ->
  exists w1 w2 countryTax,
    getTargetArea (strings_ToUpper countryCode) w = (w1, Ok TaxAreaRegional)
    /\ getSalesTaxRate origin w1 = (w2, Ok countryTax)
    /\ selectTaxRates TaxAreaRegional (strings_ToUpper countryCode)
         (option_map strings_ToUpper stateCode) w1
       = (w2, Ok (countryTax, defaultTaxRate))
    /\ Rate d = add (TaxRate countryTax) zero
    /\ (is_nan (TaxRate countryTax) = false -> eq (Rate d) (TaxRate countryTax) = true)
    /\ Type_ d = TaxType countryTax.
Proof.
  intros O R G AR.
  destruct (GetSalesTax_inv _ _ _ _ _ _ G)
    as (w1 & w2 & area & countryTax & stateTax & taxExchange & isExempt
        & A & S & _ & T & Rt & Ar & _).
  rewrite Ar in AR. subst area.
  pose proof (getTargetArea_spec _ _ _ _ A) as ((O1 & R1 & _) & _).
  rewrite O in O1. rewrite R in R1.
  pose proof S as S'.
  rewrite (selectTaxRates_origin _ origin _ w1 O1 R1) in S'.
  destruct (getSalesTaxRate origin w1) as [w2' [countryTax'|e]] eqn:E; [|discriminate].
  injection S' as <- <- <-.
  exists w1, w2', countryTax'. cbn [TaxRate defaultTaxRate] in Rt, T.
  change (gt zero zero) with false in T.
  repeat split; try assumption.
  intros N. rewrite Rt. apply Float32Facts.eq_add_zero_r. assumption.
Qed.

(** C3, amended: when a tax number is given, the area is not National, and
    the decision has a rate above zero and a type other than "none", the
    exchange classifier has reported the exemption and the decision has
    [Reverse] set and [Direct] not set. *)
Theorem C3_reverse_charge (countryCode : string) (stateCode taxNumber : option string)
    (w w' : World) (d : SalesTax) :
  GetSalesTax countryCode stateCode taxNumber w = (w', Ok d) ->
  notNil taxNumber = true ->
  Area d <> TaxAreaNational ->
  gt (Rate d) zero = true ->
  Type_ d <> "none"%string ->
  (exists w2 taxExchange,
     getTaxExchangeStatus (strings_ToUpper countryCode)
       (option_map strings_ToUpper stateCode) taxNumber w2 = (w', Ok (taxExchange, true)))
  /\ Reverse (Charge d) = true
  /\ Direct (Charge d) = false.
Proof.
  intros G N AN P T.
  destruct (GetSalesTax_inv _ _ _ _ _ _ G)
    as (w1 & w2 & area & countryTax & stateTax & taxExchange & isExempt
        & A & S & X & _ & Rt & Ar & _ & C).
  rewrite Rt in P.
  assert (B : gt (TaxRate countryTax) zero || gt (TaxRate stateTax) zero = true).
  { destruct (Float32Facts.add_gt_zero_inv _ _ P) as [-> | ->];
      [reflexivity|apply orb_true_r]. }
  rewrite B in X.
  pose proof (getTargetArea_spec _ _ _ _ A) as (K1 & _ & S1).
  pose proof (selectTaxRates_spec _ _ _ _ _ _ S) as (K2 & _).
  pose proof (getTaxExchangeStatus_spec _ _ _ _ _ _ X) as (_ & rate & _ & E).
  rewrite (areaOf_keeps w1 w2 _ K2), (areaOf_keeps w w1 _ K1), <- S1, <- Ar in E.
  unfold exchangeStatus_spec in E. rewrite N in E.
  assert (EX : isExempt = true).
  { destruct (negb (gt (combinedRate rate _) zero));
      injection E as _ ->; [reflexivity|].
    destruct (Area d); try reflexivity. contradiction AN. reflexivity. }
  subst isExempt. split; [exists w2, taxExchange; exact X|].
  apply String.eqb_neq in T. rewrite C, T, P. split; reflexivity.
Qed.
End ComposerProperties.

(** ** The charge flags *)

Section ChargeProperties.
Context {rt : Runtime}.

Import Float32.

(** In a table of rates at least zero, the resolver returns such records. *)
Lemma fromTable_nonneg (rates : gomap taxRate) (countryCode : string) (r : taxRate) :
  tableNonneg rates = true -> fromTable rates countryCode r -> recordNonneg r = true.
Proof.
  unfold tableNonneg, fromTable. intros T F.
  destruct (lookup rates countryCode) as [top|] eqn:L; [|subst r; reflexivity].
  apply lookup_In in L.
  rewrite forallb_forall in T. specialize (T _ L). cbn [snd] in T.
  apply andb_prop in T. destruct T as [T1 T2].
  destruct F as [->|[k I]]; [assumption|].
  rewrite forallb_forall in T2. exact (T2 _ I).
Qed.

Lemma state_nonneg (countryTax stateTax : taxRate) :
  recordNonneg countryTax = true ->
  stateTax = defaultTaxRate \/ stateTax = zeroTaxRate
  \/ (exists code, lookup (States countryTax) code = Some stateTax) ->
  nonneg (TaxRate stateTax) = true.
Proof.
  intros N [->|[->|[code L]]]; try reflexivity.
  unfold recordNonneg in N. apply andb_prop in N. destruct N as [_ N].
  rewrite forallb_forall in N. apply lookup_In in L. exact (N _ L).
Qed.

(** The two rates that [selectTaxRates] chooses are at least zero. *)
Lemma selectTaxRates_nonneg (area : TaxArea) (countryCode : string)
    (stateCode : option string) (w w' : World) (countryTax stateTax : taxRate) :
  tableNonneg (ratesOf (self w)) = true ->
  selectTaxRates area countryCode stateCode w = (w', Ok (countryTax, stateTax)) ->
  nonneg (TaxRate countryTax) = true /\ nonneg (TaxRate stateTax) = true.
Proof.
  intros T S. pose proof (selectTaxRates_spec _ _ _ _ _ _ S) as (_ & F & St).
  assert (N : recordNonneg countryTax = true).
  { destruct F as [F|(origin & _ & F)]; exact (fromTable_nonneg _ _ _ T F). }
  split; [|exact (state_nonneg _ _ N St)].
  unfold recordNonneg in N. apply andb_prop in N. tauto.
Qed.

(** C5: on a rate table whose rates are at least zero, the flags [Direct]
    and [Reverse] of a decision of [GetSalesTax] are never both set, and
    they are both unset only in a decision of type "none". *)
Theorem C5_charge_flags (countryCode : string) (stateCode taxNumber : option string)
    (w w' : World) (d : SalesTax) :
  tableNonneg (ratesOf (self w)) = true ->
  GetSalesTax countryCode stateCode taxNumber w = (w', Ok d) ->
  Direct (Charge d) && Reverse (Charge d) = false
  /\ (Direct (Charge d) = false -> Reverse (Charge d) = false ->
      Type_ d = "none"%string).
Proof.
  intros T G.
  destruct (GetSalesTax_inv _ _ _ _ _ _ G)
    as (w1 & w2 & area & countryTax & stateTax & taxExchange & isExempt
        & A & S & X & _ & _ & _ & _ & C).
  pose proof (getTargetArea_spec _ _ _ _ A) as ((_ & _ & K & _) & _).
  rewrite <- K in T.
  destruct (selectTaxRates_nonneg _ _ _ _ _ _ _ T S) as [Nc Ns].
  rewrite C. destruct (String.eqb (Type_ d) "none") eqn:E; cbn [negb Direct Reverse].
  - split; [reflexivity|]. intros _ _. apply String.eqb_eq. assumption.
  - split; [destruct isExempt; reflexivity|].
    intros D R. apply negb_false_iff in D. subst isExempt. cbn [andb] in R.
    destruct (gt (TaxRate countryTax) zero || gt (TaxRate stateTax) zero) eqn:B.
    + rewrite (Float32Facts.add_gt_zero _ _ Nc Ns B) in R. discriminate.
    + destruct X as (_ & _ & [=]).
Qed.
End ChargeProperties.

(** ** State codes that a per-state table does not have *)

Section StateProperties.
Context {rt : Runtime}.

Import Float32.

(** For such a state code, line 93 of [GetSalesTax] leaves the zero value of
    [taxRate] in [stateTax]: a record of rate 0 whose type is the empty
    string, where line 90 had put the default record of type "none". *)
Lemma selectTaxRates_unknown_state (area : TaxArea) (countryCode code : string)
    (w w' : World) (countryTax : taxRate) :
  TaxArea_eqb area TaxAreaRegional && negb (RegionalTaxEnabled (self w))
  && notNil (OriginCountryCode (self w)) = false ->
  getSalesTaxRate countryCode w = (w', Ok countryTax) ->
  isNil (States countryTax) = false ->
  lookup (States countryTax) code = None ->
  selectTaxRates area countryCode (Some code) w = (w', Ok (countryTax, zeroTaxRate)).
Proof.
  intros C G N L.
  rewrite (selectTaxRates_destination area countryCode (Some code) w C), G, N.
  unfold index. rewrite L. reflexivity.
Qed.

(** The exchange classifier does not tell an unknown state code from none. *)
Lemma getTaxExchangeStatus_unknown_state (countryCode code : string)
    (taxNumber : option string) (w : World) :
  strings_ToUpper (strings_ToUpper countryCode) = strings_ToUpper countryCode ->
  strings_ToUpper (strings_ToUpper code) = strings_ToUpper code ->
  (forall r, resolvable (ratesOf (self w)) (strings_ToUpper countryCode) r ->
             lookup (States r) (strings_ToUpper code) = None) ->
  getTaxExchangeStatus (strings_ToUpper countryCode) (Some (strings_ToUpper code))
    taxNumber w
  = getTaxExchangeStatus (strings_ToUpper countryCode) None taxNumber w.
Proof.
  intros Ic Is U. unfold getTaxExchangeStatus. run.
  destruct (getTargetArea (strings_ToUpper countryCode) w) as [w1 [area|e]] eqn:A;
    [|reflexivity].
  pose proof (getTargetArea_spec _ _ _ _ A) as ((_ & _ & K & _) & _).
  rewrite !hasTotalSalesTax_eq, Ic.
  destruct (getSalesTaxRate (strings_ToUpper countryCode) w1) as [w2 [rate|e]] eqn:R;
    [|reflexivity].
  pose proof (getSalesTaxRate_resolvable _ _ _ _ R) as F. rewrite K in F.
  pose proof (U _ F) as L.
  cbn [option_map]. rewrite Is. unfold combinedRate, stateComponent. rewrite L.
  reflexivity.
Qed.

(** C10: for a state code that is not in the per-state table of the record
    of the destination country, whichever record the resolver returns for it
    at a reading of the clock, [GetSalesTax] returns exactly the decision it
    returns when no state code is given, whatever the tax number.  The two
    codes are taken such that [strings.ToUpper] leaves its own result as it
    is. *)
Theorem C10_unknown_state_as_none (countryCode code : string) (taxNumber : option string)
    (w : World) :
  strings_ToUpper (strings_ToUpper countryCode) = strings_ToUpper countryCode ->
  strings_ToUpper (strings_ToUpper code) = strings_ToUpper code ->
  (forall r, resolvable (ratesOf (self w)) (strings_ToUpper countryCode) r ->
             lookup (States r) (strings_ToUpper code) = None) ->
  GetSalesTax countryCode (Some code) taxNumber w
  = GetSalesTax countryCode None taxNumber w.
Proof.
  intros Ic Is U. unfold GetSalesTax. run. cbn [option_map].
  destruct (getTargetArea (strings_ToUpper countryCode) w) as [w1 [area|e]] eqn:A;
    [|reflexivity].
  pose proof (getTargetArea_spec _ _ _ _ A) as (K1 & _).
  assert (X : forall w2, keeps w1 w2 ->
            getTaxExchangeStatus (strings_ToUpper countryCode)
              (Some (strings_ToUpper code)) taxNumber w2
            = getTaxExchangeStatus (strings_ToUpper countryCode) None taxNumber w2).
  { intros w2 K2. apply getTaxExchangeStatus_unknown_state; try assumption.
    destruct K2 as (_ & _ & -> & _). destruct K1 as (_ & _ & -> & _). exact U. }
  destruct (TaxArea_eqb area TaxAreaRegional && negb (RegionalTaxEnabled (self w1))
            && notNil (OriginCountryCode (self w1))) eqn:C.
  - apply andb_prop in C. destruct C as [C O]. apply andb_prop in C. destruct C as [Ar R].
    destruct area; try discriminate Ar.
    destruct (OriginCountryCode (self w1)) as [origin|] eqn:EO; [|discriminate O].
    apply negb_true_iff in R.
    rewrite !(selectTaxRates_origin _ origin _ w1 EO R).
    destruct (getSalesTaxRate origin w1) as [w2 [countryTax|e]] eqn:G; [|reflexivity].
    pose proof (getSalesTaxRate_spec _ _ _ _ G) as (K2 & _).
    cbn beta iota.
    destruct (gt (TaxRate countryTax) zero || gt (TaxRate defaultTaxRate) zero);
      [rewrite (X w2 K2)|]; reflexivity.
  - rewrite !(selectTaxRates_destination area _ _ w1 C).
    destruct (getSalesTaxRate (strings_ToUpper countryCode) w1)
      as [w2 [countryTax|e]] eqn:G; [|reflexivity].
    pose proof (getSalesTaxRate_spec _ _ _ _ G) as (K2 & _).
    pose proof (getSalesTaxRate_resolvable _ _ _ _ G) as F.
    destruct K1 as (_ & _ & K1 & _). rewrite K1 in F.
    pose proof (U _ F) as L.
    assert (E : match negb (isNil (States countryTax)), Some (strings_ToUpper code) with
                | true, Some c => fst (index zeroTaxRate (States countryTax) c)
                | _, _ => defaultTaxRate
                end = zeroTaxRate
                \/ match negb (isNil (States countryTax)), Some (strings_ToUpper code) with
                   | true, Some c => fst (index zeroTaxRate (States countryTax) c)
                   | _, _ => defaultTaxRate
                   end = defaultTaxRate).
    { destruct (isNil (States countryTax)); cbn [negb]; [right; reflexivity|].
      left. unfold index. rewrite L. reflexivity. }
    destruct (isNil (States countryTax)); cbn [negb] in *; cbn beta iota.
    + destruct (gt (TaxRate countryTax) zero || gt (TaxRate defaultTaxRate) zero);
        [rewrite (X w2 K2)|]; reflexivity.
    + destruct E as [-> | ->]; cbn [TaxRate zeroTaxRate defaultTaxRate];
        change (gt zero zero) with false; rewrite orb_false_r;
        (destruct (gt (TaxRate countryTax) zero); [rewrite (X w2 K2)|]; reflexivity).
Qed.
End StateProperties.

(** ** The model on the cases of the repository's tests *)

Section Tests.
Import Sample.

Example test_DE_consumer :
  GetSalesTax (rt := runtime) "DE" None None (fresh (Some "DE") true)
  = (tick (tick (filled (Some "DE") true false true)), Ok germanConsumer).
Proof. vm_compute. reflexivity. Qed.

Example test_FR_business :
  GetSalesTax (rt := runtime) "FR" None (Some "FR000000000") (fresh (Some "DE") true)
  = (filled (Some "DE") true true true, Ok frenchBusiness).
Proof. vm_compute. reflexivity. Qed.

Example test_FR_regional_disabled :
  GetSalesTax (rt := runtime) "FR" None None (fresh (Some "DE") false)
  = (tick (filled (Some "DE") false true true), Ok frenchAtGermanRate).
Proof. vm_compute. reflexivity. Qed.

Example test_CA_QC :
  GetSalesTax (rt := runtime) "CA" (Some "QC") None (fresh (Some "DE") true)
  = (filled (Some "DE") true true true, Ok quebecConsumer).
Proof. vm_compute. reflexivity. Qed.

Example test_DE_in_2020 :
  getSalesTaxRate (rt := runtime2020) "DE" (fresh None true)
  = (tick (filled None true false true), Ok (plain "vat" f0_16)).
Proof. vm_compute. reflexivity. Qed.
End Tests.

(** ** The statements at work on the sample data *)

Section Witnesses.
Import Sample.

Lemma C9_witness :
  getSalesTaxRates (rt := runtime) (fresh None true)
  = (filled None true false true, Ok rates)
  /\ lookup rates "XX" = None
  /\ getSalesTaxRate (rt := runtime) "XX" (fresh None true)
     = (filled None true false true, Ok defaultTaxRate).
Proof.
  split; [reflexivity|]. split; [reflexivity|].
  exact (proj1 (C9_absent_country_default (rt := runtime) "XX" (fresh None true)
                  (filled None true false true) rates Logic.eq_refl Logic.eq_refl)).
Defined.

Lemma C1_witness :
  getSalesTaxRates (rt := runtime) (fresh None true)
  = (filled None true false true, Ok rates)
  /\ lookup rates "GB" = Some gb
  /\ (forall k v, In (k, v) (range (PreviousRecordings gb)) ->
                  parseKey (rt := runtime) k <> None)
  /\ exists w', getSalesTaxRate (rt := runtime) "GB" (fresh None true) = (w', Ok gb).
Proof.
  assert (H : forall k v, In (k, v) (range (PreviousRecordings gb)) ->
                          parseKey (rt := runtime) k <> None).
  { intros k v [[= <- <-]|[]]. vm_compute. discriminate. }
  split; [reflexivity|]. split; [reflexivity|]. split; [exact H|].
  exact (proj2 (C1_history_resolution (rt := runtime) "GB" (fresh None true)
                  (filled None true false true) rates gb Logic.eq_refl Logic.eq_refl H)
           "2011-01-04T00:00:00.000Z" (plain "vat" f0_175) 1294099200000
           Logic.eq_refl Logic.eq_refl).
Defined.

Lemma C8_witness :
  getSalesTaxRates (rt := runtimeBadKey) (fresh None true)
  = (mkWorld (mkCtrl None true None ratesBadKey) 0, Ok ratesBadKey)
  /\ exists w' r,
       getSalesTaxRate (rt := runtimeBadKey) "DE" (fresh None true) = (w', r)
       /\ ((exists e, r = Err e)
           <-> (exists top k v,
                  lookup ratesBadKey "DE" = Some top
                  /\ In (k, v) (range (PreviousRecordings top))
                  /\ parseKey (rt := runtimeBadKey) k = None))
       /\ (forall e, r = Err e -> isParseError e = true).
Proof.
  split; [reflexivity|].
  exact (proj1 (C8_date_parse_error (rt := runtimeBadKey) "DE" (fresh None true)
                  (mkWorld (mkCtrl None true None ratesBadKey) 0) ratesBadKey
                  Logic.eq_refl)).
Defined.

Lemma C4_witness :
  getTargetArea (rt := runtime) "FR" (fresh (Some "DE") true)
  = (filled (Some "DE") true true false, Ok TaxAreaRegional)
  /\ getSalesTaxRate (rt := runtime) (strings_ToUpper (Runtime := runtime) "FR")
       (filled (Some "DE") true true false)
     = (filled (Some "DE") true true true, Ok fr)
  /\ getTaxExchangeStatus (rt := runtime) "FR" None (Some "FR000000000")
       (fresh (Some "DE") true)
     = (filled (Some "DE") true true true, Ok (TaxExchangeBusiness, true)).
Proof.
  split; [reflexivity|]. split; [reflexivity|].
  exact (C4_exchange_status (rt := runtime) "FR" None (Some "FR000000000")
           (fresh (Some "DE") true) (filled (Some "DE") true true false)
           (filled (Some "DE") true true true) TaxAreaRegional fr
           Logic.eq_refl Logic.eq_refl).
Defined.

Lemma C6_witness :
  GetSalesTax (rt := runtime) "fr" None (Some "FR000000000") (fresh (Some "DE") true)
  = (filled (Some "DE") true true true, Ok frenchBusiness)
  /\ exists w1 w2 area countryTax stateTax,
       getTargetArea (rt := runtime) (strings_ToUpper (Runtime := runtime) "fr")
         (fresh (Some "DE") true) = (w1, Ok area)
       /\ selectTaxRates (rt := runtime) area (strings_ToUpper (Runtime := runtime) "fr")
            (option_map (strings_ToUpper (Runtime := runtime)) None) w1
          = (w2, Ok (countryTax, stateTax))
       /\ Rate frenchBusiness = Float32.add (TaxRate countryTax) (TaxRate stateTax).
Proof.
  split; [vm_compute; reflexivity|].
  apply (C6_nominal_rate (rt := runtime) "fr" None (Some "FR000000000")
           (fresh (Some "DE") true) (filled (Some "DE") true true true) frenchBusiness).
  vm_compute. reflexivity.
Defined.

Lemma C2_witness :
  OriginCountryCode (self (fresh (Some "DE") false)) = Some "DE"
  /\ RegionalTaxEnabled (self (fresh (Some "DE") false)) = false
  /\ GetSalesTax (rt := runtime) "fr" None None (fresh (Some "DE") false)
     = (tick (filled (Some "DE") false true true), Ok frenchAtGermanRate)
  /\ Area frenchAtGermanRate = TaxAreaRegional
  /\ exists w1 w2 countryTax,
       getTargetArea (rt := runtime) (strings_ToUpper (Runtime := runtime) "fr")
         (fresh (Some "DE") false) = (w1, Ok TaxAreaRegional)
       /\ getSalesTaxRate (rt := runtime) "DE" w1 = (w2, Ok countryTax)
       /\ selectTaxRates (rt := runtime) TaxAreaRegional
            (strings_ToUpper (Runtime := runtime) "fr")
            (option_map (strings_ToUpper (Runtime := runtime)) None) w1
          = (w2, Ok (countryTax, defaultTaxRate))
       /\ Rate frenchAtGermanRate = Float32.add (TaxRate countryTax) Float32.zero
       /\ (Float32.is_nan (TaxRate countryTax) = false ->
           Float32.eq (Rate frenchAtGermanRate) (TaxRate countryTax) = true)
       /\ Type_ frenchAtGermanRate = TaxType countryTax.
Proof.
  split; [reflexivity|]. split; [reflexivity|].
  split; [vm_compute; reflexivity|]. split; [reflexivity|].
  apply (C2_origin_rate_in_region (rt := runtime) "fr" "DE" None None
           (fresh (Some "DE") false) (tick (filled (Some "DE") false true true))
           frenchAtGermanRate); reflexivity.
Defined.

Lemma C3_witness :
  GetSalesTax (rt := runtime) "fr" None (Some "FR000000000") (fresh (Some "DE") true)
  = (filled (Some "DE") true true true, Ok frenchBusiness)
  /\ notNil (Some "FR000000000") = true
  /\ Area frenchBusiness <> TaxAreaNational
  /\ Float32.gt (Rate frenchBusiness) Float32.zero = true
  /\ Type_ frenchBusiness <> "none"%string
  /\ (exists w2 taxExchange,
        getTaxExchangeStatus (rt := runtime) (strings_ToUpper (Runtime := runtime) "fr")
          (option_map (strings_ToUpper (Runtime := runtime)) None) (Some "FR000000000") w2
        = (filled (Some "DE") true true true, Ok (taxExchange, true)))
  /\ Reverse (Charge frenchBusiness) = true
  /\ Direct (Charge frenchBusiness) = false.
Proof.
  split; [vm_compute; reflexivity|]. split; [reflexivity|].
  split; [discriminate|]. split; [reflexivity|]. split; [discriminate|].
  apply (C3_reverse_charge (rt := runtime) "fr" None (Some "FR000000000")
           (fresh (Some "DE") true) (filled (Some "DE") true true true) frenchBusiness);
    try reflexivity; discriminate.
Defined.

Lemma C5_witness :
  tableNonneg (ratesOf (rt := runtime) (self (fresh (Some "DE") true))) = true
  /\ GetSalesTax (rt := runtime) "fr" None (Some "FR000000000") (fresh (Some "DE") true)
     = (filled (Some "DE") true true true, Ok frenchBusiness)
  /\ Direct (Charge frenchBusiness) && Reverse (Charge frenchBusiness) = false
  /\ (Direct (Charge frenchBusiness) = false -> Reverse (Charge frenchBusiness) = false ->
      Type_ frenchBusiness = "none"%string).
Proof.
  split; [reflexivity|]. split; [vm_compute; reflexivity|].
  apply (C5_charge_flags (rt := runtime) "fr" None (Some "FR000000000")
           (fresh (Some "DE") true) (filled (Some "DE") true true true) frenchBusiness).
  - reflexivity.
  - vm_compute. reflexivity.
Defined.

Lemma C10_witness :
  strings_ToUpper (Runtime := runtime) (strings_ToUpper (Runtime := runtime) "ca")
  = strings_ToUpper (Runtime := runtime) "ca"
  /\ strings_ToUpper (Runtime := runtime) (strings_ToUpper (Runtime := runtime) "xx")
     = strings_ToUpper (Runtime := runtime) "xx"
  /\ (forall r,
        resolvable (rt := runtime) (ratesOf (rt := runtime) (self (fresh (Some "DE") true)))
          (strings_ToUpper (Runtime := runtime) "ca") r ->
        lookup (States r) (strings_ToUpper (Runtime := runtime) "xx") = None)
  /\ GetSalesTax (rt := runtime) "ca" (Some "xx") None (fresh (Some "DE") true)
     = GetSalesTax (rt := runtime) "ca" None None (fresh (Some "DE") true).
Proof.
  assert (H : forall r,
             resolvable (rt := runtime)
               (ratesOf (rt := runtime) (self (fresh (Some "DE") true)))
               (strings_ToUpper (Runtime := runtime) "ca") r ->
             lookup (States r) (strings_ToUpper (Runtime := runtime) "xx") = None).
  { intros r [n R]. vm_compute in R. injection R as <-. reflexivity. }
  split; [reflexivity|]. split; [reflexivity|]. split; [exact H|].
  exact (C10_unknown_state_as_none (rt := runtime) "ca" "xx" None (fresh (Some "DE") true)
           Logic.eq_refl Logic.eq_refl H).
Defined.

(** C3 as it was stated fails: a tax number is given and the area is not
    National, but the destination is untaxed, so the classifier is not asked
    and neither flag is set. *)
Lemma C3_counterexample :
  exists w' d,
    GetSalesTax (rt := runtime) "XX" None (Some "0123456789") (fresh (Some "DE") true)
    = (w', Ok d)
    /\ notNil (Some "0123456789") = true
    /\ Area d <> TaxAreaNational
    /\ ~ (Reverse (Charge d) = true /\ Direct (Charge d) = false).
Proof.
  exists (filled (Some "DE") true true true), untaxed.
  split; [vm_compute; reflexivity|]. split; [reflexivity|].
  split; [discriminate|]. intros [H _]. discriminate H.
Qed.

(** C7, on the code as it is: for Canada and a state code that its per-state
    table does not have, the state component that [GetSalesTax] works with
    is the zero value of [taxRate], of type "" and rate 0, not the no-tax
    record of type "none"; the call returns a decision, the one of Canada
    without a state. *)
Theorem C7_unknown_state_component :
  selectTaxRates (rt := runtime) TaxAreaWorldwide "CA" (Some "XX")
    (filled (Some "DE") true true false)
  = (filled (Some "DE") true true true, Ok (ca, zeroTaxRate))
  /\ TaxType zeroTaxRate = ""%string
  /\ TaxRate zeroTaxRate = Float32.zero
  /\ zeroTaxRate <> defaultTaxRate
  /\ GetSalesTax (rt := runtime) "CA" (Some "XX") None (fresh (Some "DE") true)
     = (filled (Some "DE") true true true, Ok canadianConsumer).
Proof.
  split; [vm_compute; reflexivity|]. split; [reflexivity|]. split; [reflexivity|].
  split; [discriminate|]. vm_compute. reflexivity.
Qed.
End Witnesses.

(** ** The area classifier *)

Section AreaProperties.
Context {rt : Runtime}.

Lemma slices_Contains_In (s : list string) (v : string) :
  slices_Contains s v = true <-> In v s.
Proof.
  unfold slices_Contains. rewrite existsb_exists. split.
  - intros (x & I & E). apply String.eqb_eq in E. subst. assumption.
  - intros I. exists v. split; [assumption|apply String.eqb_refl].
Qed.

(** The loop over the regions answers Regional exactly when some region has
    both countries, wherever that region stands in the order of the loop, and
    otherwise leaves the area as it was. *)
Lemma rangeRegionCountries_spec (origin countryCode : string)
    (regions : list (string * list string)) (targetArea : TaxArea) :
  (exists region countries,
     In (region, countries) regions /\ In origin countries /\ In countryCode countries)
  /\ rangeRegionCountries origin countryCode regions targetArea = TaxAreaRegional
  \/ (~ exists region countries,
        In (region, countries) regions /\ In origin countries /\ In countryCode countries)
     /\ rangeRegionCountries origin countryCode regions targetArea = targetArea.
Proof.
  induction regions as [|[region countries] regions IH]; cbn [rangeRegionCountries].
  - right. split; [intros (r & c & [] & _)|reflexivity].
  - destruct (slices_Contains countries origin && slices_Contains countries countryCode)
      eqn:E.
    + left. apply andb_prop in E. destruct E as [E1 E2].
      apply slices_Contains_In in E1, E2.
      split; [exists region, countries; cbn; auto|reflexivity].
    + destruct IH as [[(r & c & I & Io & Ic) R]|[N R]].
      * left. split; [exists r, c; cbn; auto|assumption].
      * right. split; [|assumption].
        intros (r & c & [[= <- <-]|I] & Io & Ic).
        -- apply slices_Contains_In in Io, Ic. rewrite Io, Ic in E. discriminate.
        -- apply N. exists r, c. auto.
Qed.

Lemma rangeRegionCountries_comm (a b : string) (regions : list (string * list string))
    (targetArea : TaxArea) :
  rangeRegionCountries a b regions targetArea = rangeRegionCountries b a regions targetArea.
Proof.
  induction regions as [|[region countries] regions IH]; cbn [rangeRegionCountries];
    [reflexivity|].
  rewrite andb_comm, IH. reflexivity.
Qed.

(** X1: the area that [getTargetArea] returns.  Without an origin it is
    Worldwide; with an origin it is National exactly for the origin itself,
    Regional exactly for another country that shares a region of the region
    table with the origin, in whatever order the table is gone through, and
    Worldwide for the rest. *)
Theorem getTargetArea_classifies (countryCode : string) (w w' : World) (area : TaxArea) :
  getTargetArea countryCode w = (w', Ok area) ->
  (OriginCountryCode (self w) = None -> area = TaxAreaWorldwide)
  /\ (forall origin, OriginCountryCode (self w) = Some origin ->
        (area = TaxAreaNational <-> origin = countryCode)
        /\ (area = TaxAreaRegional <->
            origin <> countryCode
            /\ exists region countries,
                 In (region, countries) (range (regionsOf (self w)))
                 /\ In origin countries /\ In countryCode countries)).
Proof.
  intros G. pose proof (getTargetArea_spec _ _ _ _ G) as (_ & _ & ->).
  unfold areaOf. split.
  - intros ->. reflexivity.
  - intros origin ->. destruct (String.eqb origin countryCode) eqn:E.
    + apply String.eqb_eq in E.
      split; split; try tauto; try discriminate; intros [N _]; contradiction.
    + apply String.eqb_neq in E.
      destruct (rangeRegionCountries_spec origin countryCode
                  (range (regionsOf (self w))) TaxAreaWorldwide) as [[X ->]|[N ->]].
      * split; split; try tauto; try discriminate; intros _; auto.
      * split; split; try tauto; try discriminate; intros [_ X]; contradiction.
Qed.

(** X2: the classification is symmetric.  Two controllers with the same
    region table, the origin of each being the destination of the other,
    get the same area. *)
Theorem getTargetArea_symmetric (a b : string) (w w' v v' : World) (x y : TaxArea) :
  OriginCountryCode (self w) = Some a ->
  OriginCountryCode (self v) = Some b ->
  regionsOf (self w) = regionsOf (self v) ->
  getTargetArea b w = (w', Ok x) ->
  getTargetArea a v = (v', Ok y) ->
  x = y.
Proof.
  intros Oa Ob R Gw Gv.
  pose proof (getTargetArea_spec _ _ _ _ Gw) as (_ & _ & ->).
  pose proof (getTargetArea_spec _ _ _ _ Gv) as (_ & _ & ->).
  unfold areaOf. rewrite Oa, Ob, R, (String.eqb_sym b a).
  destruct (String.eqb a b); [reflexivity|apply rangeRegionCountries_comm].
Qed.
End AreaProperties.

(** ** The order of a history *)

Section OrderProperties.
Context {rt : Runtime}.

Lemma resolveAt_cases (instant : Time) (top : taxRate) :
  match resolveAt instant top with
  | Ok r =>
      (exists key date,
         nearest instant (range (PreviousRecordings top)) (Some key) (Some date)
         /\ In (key, r) (range (PreviousRecordings top)))
      \/ (r = top /\ nearest instant (range (PreviousRecordings top)) None None)
  | Err e =>
      exists k v, In (k, v) (range (PreviousRecordings top)) /\ parseKey k = None
  end.
Proof.
  destruct (PreviousRecordings top) as [recordings|] eqn:H.
  - pose proof (resolveAt_spec instant top _ H) as S.
    destruct (resolveAt instant top) as [r|e]; cbn [range]; [exact S|].
    destruct S as (k & v & I & P & _). eauto.
  - unfold resolveAt. rewrite H. right. split; [reflexivity|]. intros k v T [].
Qed.

Lemma NoDup_keys_functional (A : Type) (l : list (string * A)) (k : string) (a b : A) :
  NoDup (map fst l) -> In (k, a) l -> In (k, b) l -> a = b.
Proof.
  induction l as [|[k0 v0] l IH]; cbn [map fst]; intros N Ia Ib; [destruct Ia|].
  inversion N as [|x xs Nin N']; subst.
  destruct Ia as [Ea|Ia], Ib as [Eb|Ib].
  - congruence.
  - exfalso. apply Nin. injection Ea as -> _. apply (in_map fst) in Ib. exact Ib.
  - exfalso. apply Nin. injection Eb as -> _. apply (in_map fst) in Ia. exact Ia.
  - auto.
Qed.

(** X3: the record that [getSalesTaxRate] returns does not depend on the
    order in which [range] goes through the history.  For two receivers that
    hold the same history of a country in two orders, keys being pairwise
    distinct and no two keys denoting the same instant, at the same instant
    both calls fail, or both return their top-level record, or both return
    the same history entry. *)
Theorem getSalesTaxRate_any_order (countryCode : string) (w w0 w1 v v0 v1 : World)
    (rates rates' : gomap taxRate) (top top' : taxRate) (p p' : result taxRate) :
  getSalesTaxRates w = (w0, Ok rates) ->
  getSalesTaxRates v = (v0, Ok rates') ->
  currentTime (clockReads w0) = currentTime (clockReads v0) ->
  lookup rates countryCode = Some top ->
  lookup rates' countryCode = Some top' ->
  Permutation (range (PreviousRecordings top)) (range (PreviousRecordings top')) ->
  NoDup (map fst (range (PreviousRecordings top))) ->
  (forall k1 k2 v1 v2 T,
     In (k1, v1) (range (PreviousRecordings top)) ->
     In (k2, v2) (range (PreviousRecordings top)) ->
     parseKey k1 = Some T -> parseKey k2 = Some T -> k1 = k2) ->
  getSalesTaxRate countryCode w = (w1, p) ->
  getSalesTaxRate countryCode v = (v1, p') ->
  match p, p' with
  | Ok r, Ok r' =>
      (r = top /\ r' = top')
      \/ (r = r' /\ exists k, In (k, r) (range (PreviousRecordings top)))
  | Err _, Err _ => True
  | _, _ => False
  end.
Proof.
  intros Lw Lv C A A' P N Inj Gw Gv.
  rewrite (getSalesTaxRate_eq countryCode _ _ _ Lw), A in Gw.
  rewrite (getSalesTaxRate_eq countryCode _ _ _ Lv), A' in Gv.
  injection Gw as _ <-. injection Gv as _ <-. rewrite <- C.
  set (instant := currentTime (clockReads w0)).
  pose proof (resolveAt_cases instant top) as S.
  pose proof (resolveAt_cases instant top') as S'.
  assert (Pin : forall x, In x (range (PreviousRecordings top'))
                          -> In x (range (PreviousRecordings top)))
    by (intros x; apply Permutation_in, Permutation_sym; assumption).
  assert (Pin' : forall x, In x (range (PreviousRecordings top))
                           -> In x (range (PreviousRecordings top')))
    by (intros x; apply Permutation_in; assumption).
  destruct (resolveAt instant top) as [r|e] eqn:R;
    destruct (resolveAt instant top') as [r'|e'] eqn:R'; trivial.
  - destruct S as [(k & d & (_ & Pk & B & Min) & I)|[-> None]];
      destruct S' as [(k' & d' & (_ & Pk' & B' & Min') & I')|[-> None']].
    + right. apply Pin in I'.
      assert (E : d = d').
      { pose proof (Min _ _ _ I' Pk' B'). pose proof (Min' _ _ _ (Pin' _ I) Pk B). lia. }
      subst d'. assert (k = k') by exact (Inj _ _ _ _ _ I I' Pk Pk'). subst k'.
      split; [exact (NoDup_keys_functional _ _ _ _ _ N I I')|eauto].
    + exfalso. pose proof (None' _ _ _ (Pin' _ I) Pk). lia.
    + exfalso. pose proof (None _ _ _ (Pin _ I') Pk'). lia.
    + left. auto.
  - destruct S' as (k & x & I & Pk).
    exact (resolveAt_parsed _ _ _ R k x (Pin _ I) Pk).
  - destruct S as (k & x & I & Pk).
    exact (resolveAt_parsed _ _ _ R' k x (Pin' _ I) Pk).
Qed.
End OrderProperties.

(** ** The caches *)

Section CacheProperties.
Context {rt : Runtime}.

(** X4: once the two loaders have returned their tables, they return the
    same tables again and change nothing any more. *)
Theorem loaders_idempotent (w w1 w2 : World) (rates : gomap taxRate)
    (regions : gomap (list string)) :
  getSalesTaxRates w = (w1, Ok rates) ->
  getRegionCountries w1 = (w2, Ok regions) ->
  getSalesTaxRates w2 = (w2, Ok rates) /\ getRegionCountries w2 = (w2, Ok regions).
Proof.
  destruct w as [[o g rc tr] n].
  unfold getSalesTaxRates, getRegionCountries, set_taxRates, set_regionCountries.
  run. cbn.
  destruct tr as [l|], rc as [r|]; cbn;
    try (destruct unmarshal_salesTaxRatesData as [m [msg|]] eqn:U; cbn);
    try (intros [= <- <-]; cbn);
    try discriminate;
    try (destruct unmarshal_regionCountriesData as [m' [msg'|]] eqn:U'; cbn);
    try (intros [= <- <-]; cbn); try discriminate;
    repeat match goal with
      | |- context [isNil ?x] => destruct x; cbn
      end;
    rewrite ?U, ?U'; cbn; auto.
Qed.

Lemma steady_refl (w : World) : steady 0 w w.
Proof. unfold steady. repeat split; auto; lia. Qed.

Lemma steady_trans (a b : nat) (w1 w2 w3 : World) :
  steady a w1 w2 -> steady b w2 w3 -> steady (a + b) w1 w3.
Proof.
  unfold steady. intros (T1 & R1 & C1) (T2 & R2 & C2). repeat split; try lia.
  - intros H. rewrite T2, T1; auto. rewrite T1; assumption.
  - intros H. rewrite R2, R1; auto. rewrite R1; assumption.
Qed.

Lemma steady_le (a b : nat) (w w' : World) : (a <= b)%nat -> steady a w w' -> steady b w w'.
Proof. unfold steady. intros L (T & R & C). repeat split; auto; lia. Qed.

Lemma steady_getSalesTaxRates (w : World) : steady 0 w (fst (getSalesTaxRates w)).
Proof.
  destruct w as [[o g rc tr] n]. unfold getSalesTaxRates, set_taxRates, steady. run. cbn.
  destruct tr as [l|]; cbn; [repeat split; auto; lia|].
  destruct unmarshal_salesTaxRatesData as [m [msg|]]; cbn;
    repeat split; auto; try lia; discriminate.
Qed.

Lemma steady_getRegionCountries (w : World) : steady 0 w (fst (getRegionCountries w)).
Proof.
  destruct w as [[o g rc tr] n].
  unfold getRegionCountries, set_regionCountries, steady. run. cbn.
  destruct rc as [l|]; cbn; [repeat split; auto; lia|].
  destruct unmarshal_regionCountriesData as [m [msg|]]; cbn;
    repeat split; auto; try lia; discriminate.
Qed.

Lemma steady_getTargetArea (countryCode : string) (w : World) :
  steady 0 w (fst (getTargetArea countryCode w)).
Proof.
  unfold getTargetArea. run.
  destruct (OriginCountryCode (self w)) as [origin|]; [|apply steady_refl].
  destruct (String.eqb origin countryCode); [apply steady_refl|].
  pose proof (steady_getRegionCountries w) as S.
  destruct (getRegionCountries w) as [w1 [regions|e]]; exact S.
Qed.

Lemma steady_getSalesTaxRate (countryCode : string) (w : World) :
  steady 1 w (fst (getSalesTaxRate countryCode w)).
Proof.
  pose proof (steady_getSalesTaxRates w) as S.
  destruct (getSalesTaxRates w) as [w1 [rates|e]] eqn:L; cbn [fst] in S.
  - rewrite (getSalesTaxRate_eq countryCode _ _ _ L).
    destruct (lookup rates countryCode) as [top|]; cbn [fst];
      [|apply (steady_le 0 1); [lia|assumption]].
    destruct (isNil (PreviousRecordings top));
      [apply (steady_le 0 1); [lia|assumption]|].
    apply (steady_trans 0 1 w w1); [assumption|].
    unfold steady, tick. cbn. repeat split; auto; lia.
  - rewrite (getSalesTaxRate_load_err countryCode _ _ _ L).
    apply (steady_le 0 1); [lia|assumption].
Qed.

Lemma steady_getTaxExchangeStatus (countryCode : string) (stateCode taxNumber : option string)
    (w : World) :
  steady 1 w (fst (getTaxExchangeStatus countryCode stateCode taxNumber w)).
Proof.
  unfold getTaxExchangeStatus. run.
  pose proof (steady_getTargetArea countryCode w) as S1.
  destruct (getTargetArea countryCode w) as [w1 [area|e]]; cbn [fst] in S1;
    [|apply (steady_le 0 1); [lia|assumption]].
  rewrite hasTotalSalesTax_eq.
  pose proof (steady_getSalesTaxRate (strings_ToUpper countryCode) w1) as S2.
  destruct (getSalesTaxRate (strings_ToUpper countryCode) w1) as [w2 [rate|e]];
    cbn [fst] in S2;
    [|exact (steady_trans 0 1 _ _ _ S1 S2)].
  assert (S : steady 1 w w2) by exact (steady_trans 0 1 _ _ _ S1 S2).
  destruct (Float32.gt _ Float32.zero); [destruct (notNil taxNumber)|]; exact S.
Qed.

Lemma steady_selectTaxRates (area : TaxArea) (countryCode : string)
    (stateCode : option string) (w : World) :
  steady 1 w (fst (selectTaxRates area countryCode stateCode w)).
Proof.
  destruct (TaxArea_eqb area TaxAreaRegional && negb (RegionalTaxEnabled (self w))
            && notNil (OriginCountryCode (self w))) eqn:C.
  - apply andb_prop in C. destruct C as [C O]. apply andb_prop in C. destruct C as [A R].
    destruct area; try discriminate A.
    destruct (OriginCountryCode (self w)) as [origin|] eqn:EO; [|discriminate O].
    apply negb_true_iff in R.
    rewrite (selectTaxRates_origin countryCode origin stateCode w EO R).
    pose proof (steady_getSalesTaxRate origin w) as S.
    destruct (getSalesTaxRate origin w) as [w1 [countryTax|e]]; exact S.
  - rewrite (selectTaxRates_destination area countryCode stateCode w C).
    pose proof (steady_getSalesTaxRate countryCode w) as S.
    destruct (getSalesTaxRate countryCode w) as [w1 [countryTax|e]]; exact S.
Qed.

(** X5: what a call of [GetSalesTax] leaves behind, whether it returns a
    decision or an error.  The origin, the regional flag and the two tables
    are as before; a cache that was filled is not replaced; and the clock
    has been read at most twice. *)
Theorem GetSalesTax_leaves (countryCode : string) (stateCode taxNumber : option string)
    (w : World) :
  keeps w (fst (GetSalesTax countryCode stateCode taxNumber w))
  /\ steady 2 w (fst (GetSalesTax countryCode stateCode taxNumber w)).
Proof.
  unfold GetSalesTax. run.
  pose proof (steady_getTargetArea (strings_ToUpper countryCode) w) as S1.
  destruct (getTargetArea (strings_ToUpper countryCode) w) as [w1 [area|e1]] eqn:A;
    pose proof (getTargetArea_spec _ _ _ _ A) as (K1 & _); cbn [fst] in *;
    [|split; [assumption|apply (steady_le 0 2); [lia|assumption]]].
  pose proof (steady_selectTaxRates area (strings_ToUpper countryCode)
                (option_map strings_ToUpper stateCode) w1) as S2.
  destruct (selectTaxRates area (strings_ToUpper countryCode)
              (option_map strings_ToUpper stateCode) w1)
    as [w2 [[countryTax stateTax]|e2]] eqn:S;
    pose proof (selectTaxRates_spec _ _ _ _ _ _ S) as (K2 & _); cbn [fst] in *;
    [|split; [eapply keeps_trans; eassumption
             |apply (steady_le 1 2); [lia|exact (steady_trans 0 1 _ _ _ S1 S2)]]].
  assert (K : keeps w w2) by (eapply keeps_trans; eassumption).
  assert (S12 : steady 1 w w2) by exact (steady_trans 0 1 _ _ _ S1 S2).
  destruct (Float32.gt (TaxRate countryTax) Float32.zero
            || Float32.gt (TaxRate stateTax) Float32.zero);
    [|split; [assumption|apply (steady_le 1 2); [lia|assumption]]].
  pose proof (steady_getTaxExchangeStatus (strings_ToUpper countryCode)
                (option_map strings_ToUpper stateCode) taxNumber w2) as S3.
  destruct (getTaxExchangeStatus (strings_ToUpper countryCode)
              (option_map strings_ToUpper stateCode) taxNumber w2)
    as [w3 [[taxExchange isExempt]|e3]] eqn:X;
    pose proof (getTaxExchangeStatus_spec _ _ _ _ _ _ X) as (K3 & _); cbn [fst] in *;
    (split; [eapply keeps_trans; eassumption|exact (steady_trans 1 1 _ _ _ S12 S3)]).
Qed.
End CacheProperties.

(** ** Warm and cold caches *)

Section TransparencyProperties.
Context {rt : Runtime}.


Lemma respects_fail (A : Type) (e : error) : respects (@fail A e).
Proof. intros w v H. split; [reflexivity|exact H]. Qed.














End TransparencyProperties.

(** ** What a decision tells *)

Section DecisionProperties.
Context {rt : Runtime}.

Import Float32.

(** The status of a decision comes from the exchange classifier, asked about
    the area of the decision, or is the one [GetSalesTax] starts with. *)
Lemma GetSalesTax_status (countryCode : string) (stateCode taxNumber : option string)
    (w w' : World) (d : SalesTax) :
  GetSalesTax countryCode stateCode taxNumber w = (w', Ok d) ->
  exists countryTax stateTax isExempt,
    Rate d = add (TaxRate countryTax) (TaxRate stateTax)
    /\ Charge d = (if negb (String.eqb (Type_ d) "none")
                   then mkTaxCharge (negb isExempt) (isExempt && gt (Rate d) zero)
                   else mkTaxCharge false false)
    /\ ((Exchange d, isExempt) = (TaxExchangeConsumer, false)
        \/ gt (TaxRate countryTax) zero || gt (TaxRate stateTax) zero = true
           /\ exists rate stateCode',
                (Exchange d, isExempt)
                = exchangeStatus_spec (Area d) rate stateCode' taxNumber).
Proof.
  intros G.
  destruct (GetSalesTax_inv _ _ _ _ _ _ G)
    as (w1 & w2 & area & countryTax & stateTax & taxExchange & isExempt
        & A & S & X & _ & Rt & Ar & Ex & C).
  exists countryTax, stateTax, isExempt. rewrite Rt, Ex.
  split; [reflexivity|]. split; [exact C|].
  destruct (gt (TaxRate countryTax) zero || gt (TaxRate stateTax) zero).
  - right. split; [reflexivity|].
    pose proof (getTargetArea_spec _ _ _ _ A) as (K1 & _ & S1).
    pose proof (selectTaxRates_spec _ _ _ _ _ _ S) as (K2 & _).
    pose proof (getTaxExchangeStatus_spec _ _ _ _ _ _ X) as (_ & rate & _ & E).
    rewrite (areaOf_keeps w1 w2 _ K2), (areaOf_keeps w w1 _ K1), <- S1, <- Ar in E.
    eauto.
  - left. destruct X as (_ & -> & ->). reflexivity.
Qed.

(** X7: a decision is of the Business kind only when a tax number was
    given, and then, for a type other than "none", the tax is charged
    directly exactly in the National area: [Direct] is set there and nowhere
    else, and [Reverse] is set in the other areas when the rate is above
    zero. *)
Theorem GetSalesTax_business (countryCode : string) (stateCode taxNumber : option string)
    (w w' : World) (d : SalesTax) :
  GetSalesTax countryCode stateCode taxNumber w = (w', Ok d) ->
  Exchange d = TaxExchangeBusiness ->
  notNil taxNumber = true
  /\ (Type_ d <> "none"%string ->
      Direct (Charge d) = TaxArea_eqb (Area d) TaxAreaNational
      /\ Reverse (Charge d) = negb (TaxArea_eqb (Area d) TaxAreaNational) && gt (Rate d) zero).
Proof.
  intros G B.
  destruct (GetSalesTax_status _ _ _ _ _ _ G)
    as (countryTax & stateTax & isExempt & _ & C & [E|(_ & rate & sc & E)]);
    rewrite B in E; [discriminate E|].
  unfold exchangeStatus_spec in E.
  destruct (negb (gt (combinedRate rate sc) zero)); [discriminate E|].
  destruct (notNil taxNumber); [|discriminate E].
  injection E as ->. split; [reflexivity|].
  intros T. apply String.eqb_neq in T. rewrite C, T. cbn [negb Direct Reverse].
  rewrite negb_involutive. split; reflexivity.
Qed.

(** X8: [Reverse] is set only in a decision with a rate above zero and a
    type other than "none", never together with [Direct], and for a business
    only outside the National area. *)
Theorem GetSalesTax_reverse (countryCode : string) (stateCode taxNumber : option string)
    (w w' : World) (d : SalesTax) :
  GetSalesTax countryCode stateCode taxNumber w = (w', Ok d) ->
  Reverse (Charge d) = true ->
  gt (Rate d) zero = true
  /\ Type_ d <> "none"%string
  /\ Direct (Charge d) = false
  /\ (Exchange d = TaxExchangeBusiness -> Area d <> TaxAreaNational).
Proof.
  intros G R.
  destruct (GetSalesTax_status _ _ _ _ _ _ G)
    as (countryTax & stateTax & isExempt & _ & C & E).
  rewrite C in R |- *.
  destruct (String.eqb (Type_ d) "none") eqn:T; cbn [negb Reverse Direct] in *;
    [discriminate R|].
  apply andb_prop in R. destruct R as [-> P].
  split; [assumption|]. split; [apply String.eqb_neq; assumption|].
  split; [reflexivity|].
  intros B AN. destruct E as [E|(_ & rate & sc & E)]; [discriminate E|].
  rewrite B, AN in E. unfold exchangeStatus_spec in E.
  destruct (negb (gt (combinedRate rate sc) zero)); [discriminate E|].
  destruct (notNil taxNumber); discriminate E.
Qed.

(** X9: the origin is compared as it was given, the destination in upper
    case.  With an origin that [strings.ToUpper] would change, no
    destination is of the National area. *)
Theorem GetSalesTax_origin_case (countryCode origin : string)
    (stateCode taxNumber : option string) (w w' : World) (d : SalesTax) :
  OriginCountryCode (self w) = Some origin ->
  strings_ToUpper origin <> origin ->
  strings_ToUpper (strings_ToUpper countryCode) = strings_ToUpper countryCode ->
  GetSalesTax countryCode stateCode taxNumber w = (w', Ok d) ->
  Area d <> TaxAreaNational.
Proof.
  intros O U I G.
  destruct (GetSalesTax_inv _ _ _ _ _ _ G)
    as (w1 & w2 & area & countryTax & stateTax & taxExchange & isExempt
        & A & _ & _ & _ & _ & Ar & _).
  pose proof (getTargetArea_classifies _ _ _ _ A) as (_ & H).
  destruct (H origin O) as [[N _] _]. rewrite Ar. intros E.
  apply U. rewrite (N E). exact I.
Qed.

(** X10: a destination that the rate table does not have is untaxed,
    whatever the state code and the tax number: outside the case in which
    the rate of the origin is taken, the decision has the type "none", the
    rate 0, the Consumer kind and no flag set. *)
Theorem GetSalesTax_unknown_destination (countryCode : string)
    (stateCode taxNumber : option string) (w w1 w2 : World) (area : TaxArea)
    (rates : gomap taxRate) :
  getTargetArea (strings_ToUpper countryCode) w = (w1, Ok area) ->
  TaxArea_eqb area TaxAreaRegional && negb (RegionalTaxEnabled (self w)) = false ->
  getSalesTaxRates w1 = (w2, Ok rates) ->
  lookup rates (strings_ToUpper countryCode) = None ->
  GetSalesTax countryCode stateCode taxNumber w
  = (w2, Ok (mkSalesTax "none" zero area TaxExchangeConsumer (mkTaxCharge false false))).
Proof.
  intros A C L N.
  pose proof (getTargetArea_spec _ _ _ _ A) as ((_ & R & _) & _).
  assert (C1 : TaxArea_eqb area TaxAreaRegional && negb (RegionalTaxEnabled (self w1))
               && notNil (OriginCountryCode (self w1)) = false)
    by (rewrite R, C; reflexivity).
  unfold GetSalesTax. run. rewrite A.
  rewrite (selectTaxRates_destination area _ _ w1 C1).
  rewrite (getSalesTaxRate_eq _ _ _ _ L), N. reflexivity.
Qed.
End DecisionProperties.

(** ** Taxed destinations and failing histories *)

Section TotalProperties.
Context {rt : Runtime}.

Import Float32.

(** X11: on a record whose rates are at least zero, [hasTotalSalesTax]
    answers that there is a tax exactly when the rate of the country or the
    rate of the state, if the table of the country has the state, is above
    zero. *)
Theorem hasTotalSalesTax_components (countryCode : string) (stateCode : option string)
    (w w' : World) (rate : taxRate) :
  getSalesTaxRate (strings_ToUpper countryCode) w = (w', Ok rate) ->
  recordNonneg rate = true ->
  hasTotalSalesTax countryCode stateCode w
  = (w', Ok (gt (TaxRate rate) zero
             || gt (TaxRate (stateComponent rate (option_map strings_ToUpper stateCode)))
                  zero)).
Proof.
  intros G N. rewrite hasTotalSalesTax_eq, G. do 2 f_equal. unfold combinedRate.
  set (st := stateComponent rate (option_map strings_ToUpper stateCode)).
  assert (Ns : nonneg (TaxRate st) = true).
  { apply (state_nonneg rate st N). unfold st, stateComponent.
    destruct (option_map strings_ToUpper stateCode) as [code|]; [|auto].
    destruct (lookup (States rate) code) as [r|] eqn:L; [|auto].
    right. right. exists code. assumption. }
  assert (Nc : nonneg (TaxRate rate) = true)
    by (unfold recordNonneg in N; apply andb_prop in N; tauto).
  destruct (gt (TaxRate rate) zero || gt (TaxRate st) zero) eqn:B.
  - apply Float32Facts.add_gt_zero; assumption.
  - destruct (gt (add (TaxRate rate) (TaxRate st)) zero) eqn:S; [|reflexivity].
    apply Float32Facts.add_gt_zero_inv in S. apply orb_false_elim in B.
    destruct B as [B1 B2], S as [S|S]; congruence.
Qed.

(** X12: a history key of the destination that is no timestamp makes
    [GetSalesTax] fail, outside the case in which the rate of the origin is
    taken: the error is the one of [time.Parse] on a key of that history,
    wrapped by the resolver and by [GetSalesTax] with the country code. *)
Theorem GetSalesTax_bad_history (countryCode : string) (stateCode taxNumber : option string)
    (w w1 w2 : World) (area : TaxArea) (rates : gomap taxRate) (top x : taxRate)
    (k : string) :
  getTargetArea (strings_ToUpper countryCode) w = (w1, Ok area) ->
  TaxArea_eqb area TaxAreaRegional && negb (RegionalTaxEnabled (self w)) = false ->
  getSalesTaxRates w1 = (w2, Ok rates) ->
  lookup rates (strings_ToUpper countryCode) = Some top ->
  In (k, x) (range (PreviousRecordings top)) ->
  parseKey k = None ->
  exists k' x',
    In (k', x') (range (PreviousRecordings top))
    /\ parseKey k' = None
    /\ GetSalesTax countryCode stateCode taxNumber w
       = (tick w2,
          Err (Errorf ("failed to get country tax rate for " ++ strings_ToUpper countryCode)
                 (Errorf ("failed to parse date " ++ k') (ParseError dateLayout k')))).
Proof.
  intros A C L T I P.
  pose proof (getTargetArea_spec _ _ _ _ A) as ((_ & R & _) & _).
  assert (C1 : TaxArea_eqb area TaxAreaRegional && negb (RegionalTaxEnabled (self w1))
               && notNil (OriginCountryCode (self w1)) = false)
    by (rewrite R, C; reflexivity).
  destruct (resolveAt (currentTime (clockReads w2)) top) as [r|e] eqn:E.
  - exfalso. exact (resolveAt_parsed _ _ _ E k x I P).
  - destruct (resolveAt_err _ _ _ E) as (k' & x' & I' & P' & ->).
    exists k', x'. split; [assumption|]. split; [assumption|].
    unfold GetSalesTax. run. rewrite A.
    rewrite (selectTaxRates_destination area _ _ w1 C1).
    rewrite (getSalesTaxRate_eq _ _ _ _ L), T, E.
    destruct (PreviousRecordings top) as [recordings|]; [reflexivity|destruct I].
Qed.
End TotalProperties.

(** ** The further properties at work on the sample data *)

Section MoreWitnesses.
Import Sample.

Lemma getTargetArea_classifies_witness :
  getTargetArea (rt := runtime) "FR" (fresh (Some "DE") true)
  = (filled (Some "DE") true true false, Ok TaxAreaRegional)
  /\ "DE" <> "FR"
  /\ exists region countries,
       In (region, countries)
          (range (regionsOf (rt := runtime) (self (fresh (Some "DE") true))))
       /\ In "DE" countries /\ In "FR" countries.
Proof.
  split; [reflexivity|].
  destruct (getTargetArea_classifies (rt := runtime) "FR" (fresh (Some "DE") true)
              (filled (Some "DE") true true false) TaxAreaRegional Logic.eq_refl)
    as [_ H].
  destruct (H "DE" Logic.eq_refl) as [_ [H1 _]].
  exact (H1 Logic.eq_refl).
Defined.

Lemma getTargetArea_symmetric_witness :
  OriginCountryCode (self (fresh (Some "DE") true)) = Some "DE"
  /\ OriginCountryCode (self (fresh (Some "FR") true)) = Some "FR"
  /\ regionsOf (rt := runtime) (self (fresh (Some "DE") true))
     = regionsOf (rt := runtime) (self (fresh (Some "FR") true))
  /\ getTargetArea (rt := runtime) "FR" (fresh (Some "DE") true)
     = (filled (Some "DE") true true false, Ok TaxAreaRegional)
  /\ getTargetArea (rt := runtime) "DE" (fresh (Some "FR") true)
     = (filled (Some "FR") true true false, Ok TaxAreaRegional)
  /\ TaxAreaRegional = TaxAreaRegional.
Proof.
  repeat (split; [reflexivity|]).
  exact (getTargetArea_symmetric (rt := runtime) "DE" "FR"
           (fresh (Some "DE") true) (filled (Some "DE") true true false)
           (fresh (Some "FR") true) (filled (Some "FR") true true false)
           TaxAreaRegional TaxAreaRegional
           Logic.eq_refl Logic.eq_refl Logic.eq_refl Logic.eq_refl Logic.eq_refl).
Defined.

Lemma getSalesTaxRate_any_order_witness :
  getSalesTaxRates (rt := runtime2020) (fresh None true)
  = (filled None true false true, Ok rates)
  /\ getSalesTaxRates (rt := runtime2020) (mkWorld (mkCtrl None true None ratesSwapped) 0)
     = (mkWorld (mkCtrl None true None ratesSwapped) 0, Ok ratesSwapped)
  /\ lookup rates "DE" = Some de
  /\ lookup ratesSwapped "DE" = Some deSwapped
  /\ Permutation (range (PreviousRecordings de)) (range (PreviousRecordings deSwapped))
  /\ NoDup (map fst (range (PreviousRecordings de)))
  /\ getSalesTaxRate (rt := runtime2020) "DE" (fresh None true)
     = (tick (filled None true false true), Ok (plain "vat" f0_16))
  /\ getSalesTaxRate (rt := runtime2020) "DE"
       (mkWorld (mkCtrl None true None ratesSwapped) 0)
     = (tick (mkWorld (mkCtrl None true None ratesSwapped) 0), Ok (plain "vat" f0_16))
  /\ ((plain "vat" f0_16 = de /\ plain "vat" f0_16 = deSwapped)
      \/ (plain "vat" f0_16 = plain "vat" f0_16
          /\ exists k, In (k, plain "vat" f0_16) (range (PreviousRecordings de)))).
Proof.
  assert (P : Permutation (range (PreviousRecordings de))
                (range (PreviousRecordings deSwapped))) by apply perm_swap.
  assert (N : NoDup (map fst (range (PreviousRecordings de)))).
  { cbn. constructor; [|constructor; [|constructor]]; cbn; intuition discriminate. }
  assert (I : forall k1 k2 v1 v2 T,
             In (k1, v1) (range (PreviousRecordings de)) ->
             In (k2, v2) (range (PreviousRecordings de)) ->
             parseKey (rt := runtime2020) k1 = Some T ->
             parseKey (rt := runtime2020) k2 = Some T -> k1 = k2).
  { intros k1 k2 v1 v2 T [E1|[E1|[]]] [E2|[E2|[]]] P1 P2;
      injection E1 as <- _; injection E2 as <- _; try reflexivity;
      vm_compute in P1, P2; congruence. }
  repeat (split; [first [reflexivity | assumption | vm_compute; reflexivity]|]).
  exact (getSalesTaxRate_any_order (rt := runtime2020) "DE"
           (fresh None true) (filled None true false true)
           (tick (filled None true false true))
           (mkWorld (mkCtrl None true None ratesSwapped) 0)
           (mkWorld (mkCtrl None true None ratesSwapped) 0)
           (tick (mkWorld (mkCtrl None true None ratesSwapped) 0))
           rates ratesSwapped de deSwapped
           (Ok (plain "vat" f0_16)) (Ok (plain "vat" f0_16))
           Logic.eq_refl Logic.eq_refl Logic.eq_refl Logic.eq_refl Logic.eq_refl
           P N I Logic.eq_refl Logic.eq_refl).
Defined.

Lemma loaders_idempotent_witness :
  getSalesTaxRates (rt := runtime) (fresh (Some "DE") true)
  = (filled (Some "DE") true false true, Ok rates)
  /\ getRegionCountries (rt := runtime) (filled (Some "DE") true false true)
     = (filled (Some "DE") true true true, Ok regions)
  /\ getSalesTaxRates (rt := runtime) (filled (Some "DE") true true true)
     = (filled (Some "DE") true true true, Ok rates)
  /\ getRegionCountries (rt := runtime) (filled (Some "DE") true true true)
     = (filled (Some "DE") true true true, Ok regions).
Proof.
  split; [reflexivity|]. split; [reflexivity|].
  exact (loaders_idempotent (rt := runtime) (fresh (Some "DE") true)
           (filled (Some "DE") true false true) (filled (Some "DE") true true true)
           rates regions Logic.eq_refl Logic.eq_refl).
Defined.


Lemma GetSalesTax_business_witness :
  GetSalesTax (rt := runtime) "FR" None (Some "FR000000000") (fresh (Some "DE") true)
  = (filled (Some "DE") true true true, Ok frenchBusiness)
  /\ Exchange frenchBusiness = TaxExchangeBusiness
  /\ notNil (Some "FR000000000") = true
  /\ (Type_ frenchBusiness <> "none"%string ->
      Direct (Charge frenchBusiness) = TaxArea_eqb (Area frenchBusiness) TaxAreaNational
      /\ Reverse (Charge frenchBusiness)
         = negb (TaxArea_eqb (Area frenchBusiness) TaxAreaNational)
           && Float32.gt (Rate frenchBusiness) Float32.zero).
Proof.
  split; [vm_compute; reflexivity|]. split; [reflexivity|].
  apply (GetSalesTax_business (rt := runtime) "FR" None (Some "FR000000000")
           (fresh (Some "DE") true) (filled (Some "DE") true true true) frenchBusiness);
    [vm_compute; reflexivity|reflexivity].
Defined.

Lemma GetSalesTax_reverse_witness :
  GetSalesTax (rt := runtime) "FR" None (Some "FR000000000") (fresh (Some "DE") true)
  = (filled (Some "DE") true true true, Ok frenchBusiness)
  /\ Reverse (Charge frenchBusiness) = true
  /\ Float32.gt (Rate frenchBusiness) Float32.zero = true
  /\ Type_ frenchBusiness <> "none"%string
  /\ Direct (Charge frenchBusiness) = false
  /\ (Exchange frenchBusiness = TaxExchangeBusiness ->
      Area frenchBusiness <> TaxAreaNational).
Proof.
  split; [vm_compute; reflexivity|]. split; [reflexivity|].
  apply (GetSalesTax_reverse (rt := runtime) "FR" None (Some "FR000000000")
           (fresh (Some "DE") true) (filled (Some "DE") true true true) frenchBusiness);
    [vm_compute; reflexivity|reflexivity].
Defined.

Lemma GetSalesTax_origin_case_witness :
  OriginCountryCode (self (fresh (Some "de") true)) = Some "de"
  /\ strings_ToUpper (Runtime := runtime) "de" <> "de"
  /\ strings_ToUpper (Runtime := runtime) (strings_ToUpper (Runtime := runtime) "de")
     = strings_ToUpper (Runtime := runtime) "de"
  /\ GetSalesTax (rt := runtime) "de" None None (fresh (Some "de") true)
     = (tick (tick (filled (Some "de") true true true)), Ok germanFromAbroad)
  /\ Area germanFromAbroad <> TaxAreaNational.
Proof.
  split; [reflexivity|]. split; [discriminate|]. split; [reflexivity|].
  split; [vm_compute; reflexivity|].
  apply (GetSalesTax_origin_case (rt := runtime) "de" "de" None None
           (fresh (Some "de") true) (tick (tick (filled (Some "de") true true true)))
           germanFromAbroad);
    [reflexivity|discriminate|reflexivity|vm_compute; reflexivity].
Defined.

Lemma GetSalesTax_unknown_destination_witness :
  getTargetArea (rt := runtime) (strings_ToUpper (Runtime := runtime) "xx")
    (fresh (Some "DE") true)
  = (filled (Some "DE") true true false, Ok TaxAreaWorldwide)
  /\ TaxArea_eqb TaxAreaWorldwide TaxAreaRegional
     && negb (RegionalTaxEnabled (self (fresh (Some "DE") true))) = false
  /\ getSalesTaxRates (rt := runtime) (filled (Some "DE") true true false)
     = (filled (Some "DE") true true true, Ok rates)
  /\ lookup rates (strings_ToUpper (Runtime := runtime) "xx") = None
  /\ GetSalesTax (rt := runtime) "xx" (Some "ny") (Some "0123456789")
       (fresh (Some "DE") true)
     = (filled (Some "DE") true true true,
        Ok (mkSalesTax "none" Float32.zero TaxAreaWorldwide TaxExchangeConsumer
              (mkTaxCharge false false))).
Proof.
  repeat (split; [reflexivity|]).
  exact (GetSalesTax_unknown_destination (rt := runtime) "xx" (Some "ny")
           (Some "0123456789") (fresh (Some "DE") true)
           (filled (Some "DE") true true false) (filled (Some "DE") true true true)
           TaxAreaWorldwide rates
           Logic.eq_refl Logic.eq_refl Logic.eq_refl Logic.eq_refl).
Defined.

Lemma hasTotalSalesTax_components_witness :
  getSalesTaxRate (rt := runtime) (strings_ToUpper (Runtime := runtime) "us")
    (fresh None true)
  = (filled None true false true, Ok us)
  /\ recordNonneg us = true
  /\ hasTotalSalesTax (rt := runtime) "us" (Some "ny") (fresh None true)
     = (filled None true false true, Ok true).
Proof.
  split; [reflexivity|]. split; [reflexivity|].
  exact (hasTotalSalesTax_components (rt := runtime) "us" (Some "ny") (fresh None true)
           (filled None true false true) us Logic.eq_refl Logic.eq_refl).
Defined.

Lemma GetSalesTax_bad_history_witness :
  getTargetArea (rt := runtimeBadKey) (strings_ToUpper (Runtime := runtimeBadKey) "de")
    (fresh None true)
  = (fresh None true, Ok TaxAreaWorldwide)
  /\ TaxArea_eqb TaxAreaWorldwide TaxAreaRegional
     && negb (RegionalTaxEnabled (self (fresh None true))) = false
  /\ getSalesTaxRates (rt := runtimeBadKey) (fresh None true)
     = (mkWorld (mkCtrl None true None ratesBadKey) 0, Ok ratesBadKey)
  /\ lookup ratesBadKey (strings_ToUpper (Runtime := runtimeBadKey) "de")
     = Some (mkTaxRate "vat" f0_19 (Some [("yesterday", plain "vat" f0_16)]) None)
  /\ parseKey (rt := runtimeBadKey) "yesterday" = None
  /\ exists k' x',
       In (k', x') [("yesterday", plain "vat" f0_16)]
       /\ parseKey (rt := runtimeBadKey) k' = None
       /\ GetSalesTax (rt := runtimeBadKey) "de" None None (fresh None true)
          = (tick (mkWorld (mkCtrl None true None ratesBadKey) 0),
             Err (Errorf ("failed to get country tax rate for "
                          ++ strings_ToUpper (Runtime := runtimeBadKey) "de")
                    (Errorf ("failed to parse date " ++ k')
                       (ParseError (dateLayout) k')))).
Proof.
  repeat (split; [reflexivity|]).
  exact (GetSalesTax_bad_history (rt := runtimeBadKey) "de" None None (fresh None true)
           (fresh None true) (mkWorld (mkCtrl None true None ratesBadKey) 0)
           TaxAreaWorldwide ratesBadKey
           (mkTaxRate "vat" f0_19 (Some [("yesterday", plain "vat" f0_16)]) None)
           (plain "vat" f0_16) "yesterday"
           Logic.eq_refl Logic.eq_refl Logic.eq_refl Logic.eq_refl
           (or_introl Logic.eq_refl) Logic.eq_refl).
Defined.
End MoreWitnesses.
